(** * AgroBert backend (app.py): account recovery, login, chat intent router
      and simulated analytics

    A shallow embedding of the Flask handlers of [app.py].

    - The [users] table of the SQLite database is a list of rows, scanned in
      table order; [fetchone] is the first matching row.
    - The process-wide dictionary [otp_store] is a finite map from user names
      to the decimal text of the issued code.
    - Each handler is a function from the parsed request fields and the
      current state to an HTTP response and the next state.  What the handler
      obtains from outside (the outcome of [get_db_conn], the Twilio call,
      the Gemini call, every [random] draw, the salt of the password hash) is
      an explicit argument.
    - A request field read with [data.get(k)] is an [option string]: [None]
      is what Python's [None] is (a missing key or a JSON null). For a field
      read with a default, [data.get(k, d)] or [request.args.get(k, d)],
      [None] is the missing key only: a JSON null there is not a value of
      the model (the chat handler raises on it before any rule is tried).
    - Python floats are idealised as exact rationals ([Q]); [round] is
      round-half-to-even on them.
    - Text is UTF-8 bytes; [str.lower] and [str.capitalize] act on the ASCII
      letters and leave the other bytes as they are (the Devanagari and
      Kannada scripts of the tables have no case).
    - Console output ([print]) is not part of the model. *)

From Stdlib Require Import ZArith QArith Qround String Ascii List Sorted Lqa Lia.
From stdpp Require Import base option gmap strings pretty.

Local Open Scope Z_scope.
Local Open Scope string_scope.

(* ===================================================================== *)
(** * Data model *)
(* ===================================================================== *)

(** One row of the [users] table. *)
Record User := mkUser {
  username : string;
  password_hash : string;
  role : string;
  email : string;
  mobile : string
}.

(** The state shared by all requests: the table and the global [otp_store]. *)
Record State := mkState {
  users : list User;
  otp_store : gmap string string
}.

(** JSON bodies produced by [jsonify]. *)
Inductive Body :=
  | Msg (m : string)                        (* {"msg": m} *)
  | AccessToken (t : string)                (* {"access_token": t} *)
  | ChatResponse (r : string)               (* {"response": r} *)
  | StatePrices (l : list (string * Z)).    (* {state: price, ...} *)

Record Response := mkResponse {
  body : Body;
  status : Z
}.

(** The libraries the handlers call: werkzeug's password hashing and
    flask_jwt_extended's token issuance. *)
Class Werkzeug := {
  hash_internal : string -> string -> string;   (* salt, password *)
  hash_matches : string -> string -> bool       (* stored hash, password *)
}.

Class JwtExtended := {
  sign_token : string -> string -> string       (* identity, role claim *)
}.

(** [generate_password_hash(password)]: encodes the password, so it raises
    (here [None]) when the argument is Python's [None]. *)
Definition generate_password_hash `{Werkzeug} (salt : string)
    (password : option string) : option string :=
  match password with
  | Some p => Some (hash_internal salt p)
  | None => None
  end.

(** [check_password_hash(pwhash, password)], raising likewise. *)
Definition check_password_hash `{Werkzeug} (pwhash : string)
    (password : option string) : option bool :=
  match password with
  | Some p => Some (hash_matches pwhash p)
  | None => None
  end.

Definition create_access_token `{JwtExtended} (identity : string)
    (role_claim : string) : string :=
  sign_token identity role_claim.

(* ===================================================================== *)
(** * The users table *)
(* ===================================================================== *)

(** [SELECT * FROM users WHERE username = ?] then [fetchone()].
    A NULL parameter compares equal to nothing. *)
Definition select_by_username (name : option string) (t : list User)
    : option User :=
  match name with
  | Some n => find (fun u => String.eqb (username u) n) t
  | None => None
  end.

Definition matches_identifier (i : string) (u : User) : bool :=
  String.eqb (username u) i || String.eqb (email u) i || String.eqb (mobile u) i.

(** [SELECT * FROM users WHERE username = ? OR email = ? OR mobile = ?]
    then [fetchone()]: the first row, in table order, that matches. When
    several rows match (a value that is the user name of one row and the
    e-mail address or mobile number of another) SQLite may hand out another
    of them first; the properties below are stated of the row the query
    returns, and [identifiers_interchangeable] covers the tables where only
    one row can match. *)
Definition select_by_identifier (identifier : option string) (t : list User)
    : option User :=
  match identifier with
  | Some i => find (matches_identifier i) t
  | None => None
  end.

Definition set_password_hash (h : string) (u : User) : User :=
  mkUser (username u) h (role u) (email u) (mobile u).

(** [UPDATE users SET password_hash = ? WHERE username = ?]. *)
Definition update_password_hash (h : string) (name : string) (t : list User)
    : list User :=
  map (fun u => if String.eqb (username u) name then set_password_hash h u else u) t.

(* ===================================================================== *)
(** * Authentication endpoints *)
(* ===================================================================== *)

Definition db_error : Response := mkResponse (Msg "Database connection error") 500.

(** [login()] reads the table only. [conn] is whether [get_db_conn]
    returned a connection. *)
Definition login `{Werkzeug} `{JwtExtended} (conn : bool)
    (name password : option string) (st : State) : Response :=
  if negb conn then db_error
  else
    match select_by_username name (users st) with
    | None => mkResponse (Msg "Bad username or password") 401
    | Some user =>
        match check_password_hash (password_hash user) password with
        | None => mkResponse (Msg "Login failed") 500
        | Some false => mkResponse (Msg "Bad username or password") 401
        | Some true =>
            mkResponse
              (AccessToken (create_access_token (default "" name) (role user)))
              200
        end
    end.

(** What [twilio_client] is and what [messages.create] does in this request. *)
Inductive Twilio :=
  | TwilioNotConfigured            (* twilio_client is None *)
  | TwilioSent (sid : string)      (* the message was created *)
  | TwilioRaises.                  (* messages.create raised *)

(** [send_otp()]: [draw] is the value of [random.randint(100000, 999999)];
    [pretty draw] is [str(draw)]. *)
Definition send_otp (conn : bool) (tw : Twilio) (draw : Z)
    (identifier : option string) (st : State) : Response * State :=
  if negb conn then (db_error, st)
  else
    match select_by_identifier identifier (users st) with
    | None => (mkResponse (Msg "User not found") 404, st)
    | Some user =>
        let found_username := username user in
        let otp := pretty draw in
        let st' := mkState (users st) (<[found_username := otp]> (otp_store st)) in
        match tw with
        | TwilioSent _ =>
            (mkResponse (Msg "OTP sent successfully to your mobile.") 200, st')
        | TwilioRaises =>
            (mkResponse
               (Msg "Could not send SMS. For development, please check server console for OTP.")
               200, st')
        | TwilioNotConfigured =>
            (mkResponse
               (Msg "OTP generated. For development, please check server console.")
               200, st')
        end
    end.

(** [otp_store.get(user_to_reset) != otp] for the submitted field. *)
Definition otp_differs (stored submitted : option string) : bool :=
  negb (bool_decide (stored = submitted)).

(** [reset_password()]: the request carries the identifier under the key
    "username". *)
Definition reset_password `{Werkzeug} (conn : bool) (salt : string)
    (identifier otp new_password : option string) (st : State)
    : Response * State :=
  if negb conn then (db_error, st)
  else
    match select_by_identifier identifier (users st) with
    | None => (mkResponse (Msg "User not found") 404, st)
    | Some user =>
        let user_to_reset := username user in
        if negb (bool_decide (is_Some (otp_store st !! user_to_reset)))
           || otp_differs (otp_store st !! user_to_reset) otp
        then (mkResponse (Msg "Invalid or expired OTP") 400, st)
        else
          match generate_password_hash salt new_password with
          | None => (mkResponse (Msg "Failed to reset password") 500, st)
          | Some new_hashed_password =>
              (mkResponse (Msg "Password updated successfully") 200,
               mkState
                 (update_password_hash new_hashed_password user_to_reset (users st))
                 (delete user_to_reset (otp_store st)))
          end
    end.

(* ===================================================================== *)
(** * Python built-ins used by the chat and analytics handlers *)
(* ===================================================================== *)

Definition is_ascii_upper (c : ascii) : bool :=
  (65 <=? nat_of_ascii c)%nat && (nat_of_ascii c <=? 90)%nat.

Definition is_ascii_lower (c : ascii) : bool :=
  (97 <=? nat_of_ascii c)%nat && (nat_of_ascii c <=? 122)%nat.

Definition lower_char (c : ascii) : ascii :=
  if is_ascii_upper c then ascii_of_nat (nat_of_ascii c + 32) else c.

Definition upper_char (c : ascii) : ascii :=
  if is_ascii_lower c then ascii_of_nat (nat_of_ascii c - 32) else c.

(** [s.lower()] *)
Fixpoint py_lower (s : string) : string :=
  match s with
  | EmptyString => EmptyString
  | String c r => String (lower_char c) (py_lower r)
  end.

(** [s.capitalize()] *)
Definition py_capitalize (s : string) : string :=
  match s with
  | EmptyString => EmptyString
  | String c r => String (upper_char c) (py_lower r)
  end.

(** [k in s] on strings: [k] occurs in [s] as a contiguous substring. *)
Fixpoint py_in (k s : string) : bool :=
  String.prefix k s ||
  match s with
  | EmptyString => false
  | String _ r => py_in k r
  end.

(** [any(k in s for k in ks)] *)
Definition any_in (ks : list string) (s : string) : bool :=
  existsb (fun k => py_in k s) ks.

(** [d.get(k)] on a dictionary literal kept in insertion order. *)
Fixpoint dict_get {A} (k : string) (d : list (string * A)) : option A :=
  match d with
  | [] => None
  | (k', v) :: d' => if String.eqb k' k then Some v else dict_get k d'
  end.

(** [round(x)] with one argument: nearest integer, ties to the even one. *)
Definition py_round (x : Q) : Z :=
  let f := Qfloor x in
  match Qcompare (x - inject_Z f) (1 # 2) with
  | Lt => f
  | Gt => f + 1
  | Eq => if Z.even f then f else f + 1
  end.

(** Grouping of a digit string by thousands, as the [,] format option does. *)
Fixpoint insert_commas (digits : string) : string :=
  match digits with
  | EmptyString => EmptyString
  | String c r =>
      String c
        (if (0 <? String.length r)%nat && (String.length r mod 3 =? 0)%nat
         then "," +:+ insert_commas r
         else insert_commas r)
  end.

(** [f"{price:,.2f}"] for an [int] price. *)
Definition format_comma_2f (price : Z) : string :=
  (if (price <? 0)%Z then "-" else "") +:+ insert_commas (pretty (Z.abs price)) +:+ ".00".

(** [template.format] with keyword arguments [kw], for templates whose replacement fields are plain
    names: [field] is the name being read between the braces. *)
Fixpoint format_fields (template : string) (field : option string)
    (kw : list (string * string)) : string :=
  match template with
  | EmptyString => EmptyString
  | String c r =>
      match field with
      | None =>
          if Ascii.eqb c "{" then format_fields r (Some EmptyString) kw
          else String c (format_fields r None kw)
      | Some name =>
          if Ascii.eqb c "}"
          then default EmptyString (dict_get name kw) +:+ format_fields r None kw
          else format_fields r (Some (name +:+ String c EmptyString)) kw
      end
  end.

Definition py_format (template : string) (kw : list (string * string)) : string :=
  format_fields template None kw.

(* ===================================================================== *)
(** * Simulation engine *)
(* ===================================================================== *)

Record PriceReport := mkPriceReport {
  average_price : Z;
  low_price : Z;
  high_price : Z
}.

Definition base_prices : list (string * Z) :=
  [("wheat", 2200); ("rice", 3000); ("cotton", 6000); ("onion", 1700);
   ("potato", 1500); ("maize", 1800); ("tomato", 1200); ("banana", 1800)].

(** [get_price_prediction(commodity, market, days_ahead)].  The three draws
    are [random.uniform(-5, 10)], [random.uniform(0.05, 0.15)] and
    [random.uniform(0.05, 0.15)], in the order the function makes them. *)
Definition get_price_prediction (commodity market : string) (days_ahead : Z)
    (r_trend r_low r_high : Q) : PriceReport :=
  let base_price := default 2500 (dict_get (py_lower commodity) base_prices) in
  let avg_price := (inject_Z base_price + inject_Z days_ahead * r_trend)%Q in
  let avg_price :=
    (avg_price *
       (if existsb (String.eqb (py_lower market)) ["mumbai"; "delhi"]
        then 105 # 100 else 101 # 100))%Q in
  let avg_price := py_round avg_price in
  let low_price := py_round (inject_Z avg_price * (1 - r_low))%Q in
  let high_price := py_round (inject_Z avg_price * (1 + r_high))%Q in
  mkPriceReport avg_price low_price high_price.

Definition heatmap_states : list string :=
  ["Andhra Pradesh"; "Arunachal Pradesh"; "Assam"; "Bihar"; "Chhattisgarh";
   "Goa"; "Gujarat"; "Haryana"; "Himachal Pradesh"; "Jharkhand"; "Karnataka";
   "Kerala"; "Madhya Pradesh"; "Maharashtra"; "Manipur"; "Meghalaya";
   "Mizoram"; "Nagaland"; "Odisha"; "Punjab"; "Rajasthan"; "Sikkim";
   "Tamil Nadu"; "Telangana"; "Tripura"; "Uttar Pradesh"; "Uttarakhand";
   "West Bengal"; "Jammu and Kashmir"; "Ladakh"; "Delhi"; "Puducherry";
   "Andaman and Nicobar Islands"; "Chandigarh";
   "Dadra and Nagar Haveli and Daman and Diu"].

(** [handle_heatmap_data()]: [commodity] is the query argument ([None] when
    absent); [u i] is the draw [random.uniform(0.85, 1.15)] made for the
    [i]-th state of the comprehension. The list is the dictionary [data] in
    the order it is built; [jsonify] writes the keys of an object sorted, so
    the order is not part of the answer. *)
Definition handle_heatmap_data (commodity : option string)
    (r_trend r_low r_high : Q) (u : nat -> Q) : Response :=
  let price_report :=
    get_price_prediction (default "unknown" commodity) "Delhi" 0
      r_trend r_low r_high in
  let base_price := average_price price_report in
  let data :=
    imap (fun i state => (state, py_round (inject_Z base_price * u i)%Q))
      heatmap_states in
  mkResponse (StatePrices data) 200.

(* ===================================================================== *)
(** * Chat intent router *)
(* ===================================================================== *)

Definition chat_responses : list (string * list (string * string)) :=
  [("en",
     [("price",
       "The predicted price is showing an upward trend due to market demand.");
      ("weather",
       "The current weather forecast is favorable for this crop.");
      ("recommend",
       "Based on your conditions, Wheat is a good option.");
      ("greeting",
       "Hello! How can I assist you with AgroBert today?");
      ("default",
       "I can help with price predictions, weather impact, and crop recommendations.");
      ("price_detail",
       "The current simulated price for {commodity} in {market} is around ₹{price}/quintal. The trend is positive.")]);
  ("hi",
     [("price",
       "बाजार की मांग के कारण अनुमानित कीमत में तेजी का रुख दिख रहा है।");
      ("weather",
       "वर्तमान मौसम का पूर्वानुमान इस फसल के लिए अनुकूल है।");
      ("recommend",
       "आपकी परिस्थितियों के आधार पर, गेहूं एक अच्छा विकल्प है।");
      ("greeting",
       "नमस्ते! मैं आज एग्रोबर्ट में आपकी कैसे सहायता कर सकता हूँ?");
      ("default",
       "मैं मूल्य भविष्यवाणी, मौसम के प्रभाव और फसल की सिफारिशों में मदद कर सकता हूँ।");
      ("price_detail",
       "{market} में {commodity} का वर्तमान सिम्युलेटेड मूल्य लगभग ₹{price}/क्विंटल है। प्रवृत्ति सकारात्मक है।")]);
  ("kn",
     [("price",
       "ಮಾರುಕಟ್ಟೆಯ ಬೇಡಿಕೆಯಿಂದಾಗಿ ಊಹಿಸಲಾದ ಬೆಲೆಯು ಏರುಮುಖವಾಗಿದೆ.");
      ("weather",
       "ಪ್ರಸ್ತುತ ಹವಾಮಾನ ಮುನ್ಸೂಚನೆಯು ಈ ಬೆಳೆಗೆ ಅನುಕೂಲಕರವಾಗಿದೆ.");
      ("recommend",
       "ನಿಮ್ಮ ಪರಿಸ್ಥಿತಿಗಳ ಆಧಾರದ ಮೇಲೆ, ಗೋಧಿ ಉತ್ತಮ ಆಯ್ಕೆಯಾಗಿದೆ.");
      ("greeting",
       "ನಮಸ್ಕಾರ! ಇಂದು ನಾನು ನಿಮಗೆ ಆಗ್ರೋಬರ್ಟ್‌ನಲ್ಲಿ ಹೇಗೆ ಸಹಾಯ ಮಾಡಬಹುದು?");
      ("default",
       "ನಾನು ಬೆಲೆ ಮುನ್ಸೂಚನೆಗಳು, ಹವಾಮಾನದ ಪ್ರಭಾವ ಮತ್ತು ಬೆಳೆ ಶಿಫಾರಸುಗಳೊಂದಿಗೆ ಸಹಾಯ ಮಾಡಬಹುದು.");
      ("price_detail",
       "{market} ನಲ್ಲಿ {commodity} ಗಾಗಿ ಪ್ರಸ್ತುತ ಸಿಮ್ಯುಲೇಟೆಡ್ ಬೆಲೆ ಸುಮಾರು ₹{price}/ಕ್ವಿಂಟಾಲ್ ಆಗಿದೆ. ಪ್ರವೃತ್ತಿ ಧನಾತ್ಮಕವಾಗಿದೆ.")])].

Definition commodity_keywords : list (string * list string) :=
  [("wheat", ["wheat"; "गेहूं"; "ಗೋಧಿ"]);
   ("rice", ["rice"; "चावल"; "ಅಕ್ಕಿ"]);
   ("cotton", ["cotton"; "कपास"; "ಹತ್ತಿ"]);
   ("onion", ["onion"; "प्याज"; "ಈರುಳ್ಳಿ"]);
   ("potato", ["potato"; "आलू"; "ಆಲೂಗಡ್ಡೆ"]);
   ("tomato", ["tomato"; "टमाटर"; "ಟೊಮೆಟೊ"])].

Definition MARKET_KEYWORDS : list string :=
  ["delhi"; "mumbai"; "bengaluru"; "kolkata"; "chennai"; "pune";
   "jaipur"; "davanagere"; "lucknow"; "kanpur"; "nagpur"; "indore";
   "thane"; "bhopal"; "patna"; "shivamogga"; "ludhiana"; "agra";
   "nashik"; "vadodara"; "meerut"; "rajkot"; "varanasi"; "hubali";
   "amritsar"; "allahabad"; "jodhpur"; "kochi"; "mysuru"; "hyderabad";
   "bhubaneswar"].

Definition greeting_keywords : list string := ["hello"; "hi"; "ನಮಸ್ಕಾರ"; "नमस्ते"].
Definition price_keywords : list string := ["price"; "ಬೆಲೆ"; "दाम"].
Definition weather_keywords : list string := ["weather"; "ಹವಾಮಾನ"; "मौसम"].
Definition recommend_keywords : list string := ["recommend"; "ಶಿಫಾರಸು"; "सुझाव"].

(** [d[k]] on the response tables, where every key read is present. *)
Definition subscript (d : list (string * string)) (k : string) : string :=
  default EmptyString (dict_get k d).

(** What [GEMINI_ENABLED] is and, when it is set, what
    [start_chat(history).send_message(query).text] gives: [None] when any
    step of it raises. *)
Inductive Gemini :=
  | GeminiDisabled
  | GeminiEnabled (send_message : list (string * string) -> string -> option string).

(** The loop over [commodity_keywords.items()], leaving at the first hit. *)
Definition find_commodity (user_query : string) : option string :=
  fst <$> find (fun entry => any_in (snd entry) user_query) commodity_keywords.

(** The loop over [MARKET_KEYWORDS], leaving at the first hit. *)
Definition find_market (user_query : string) : string :=
  match find (fun market => py_in market user_query) MARKET_KEYWORDS with
  | Some market => py_capitalize market
  | None => "Delhi"
  end.

Definition lang_commodity_index (lang : string) : option nat :=
  if String.eqb lang "kn" then Some 2%nat
  else if String.eqb lang "hi" then Some 1%nat
  else None.

Definition display_commodity (lang found_commodity : string) : string :=
  match lang_commodity_index lang with
  | Some i =>
      match default [] (dict_get found_commodity commodity_keywords) !! i with
      | Some keyword => py_capitalize keyword
      | None => py_capitalize found_commodity
      end
  | None => py_capitalize found_commodity
  end.

(** The rule part of [handle_chat]: [Some text] when [rule_matched] ends up
    [True], with the text the rule chose. *)
Definition match_rules (responses : list (string * string)) (lang : string)
    (user_query : string) (r_trend r_low r_high : Q) : option string :=
  if any_in greeting_keywords user_query then Some (subscript responses "greeting")
  else
    let found_market := find_market user_query in
    match find_commodity user_query with
    | Some found_commodity =>
        let price_report :=
          get_price_prediction found_commodity found_market 7 r_trend r_low r_high in
        let price := average_price price_report in
        Some (py_format (subscript responses "price_detail")
                [("commodity", display_commodity lang found_commodity);
                 ("market", found_market);
                 ("price", format_comma_2f price)])
    | None =>
        if any_in price_keywords user_query then Some (subscript responses "price")
        else if any_in weather_keywords user_query then Some (subscript responses "weather")
        else if any_in recommend_keywords user_query then Some (subscript responses "recommend")
        else None
    end.

(** [chat_responses.get(lang, chat_responses['en'])] *)
Definition responses_for (lang : string) : list (string * string) :=
  default (default [] (dict_get "en" chat_responses)) (dict_get lang chat_responses).

Definition system_prompt (lang : string) : string :=
  "You are AgriBERT, a helpful agricultural assistant. Answer questions related to farming, crop prices, weather, and market analysis in India. Please respond in this language: "
  +:+ lang +:+ ". Be concise and helpful.".

(** [handle_chat()]: [query] and [lang] are the request fields, [None] when
    the key is absent (the defaults of [data.get] then apply). *)
Definition handle_chat (gemini : Gemini) (r_trend r_low r_high : Q)
    (query lang : option string) : Response :=
  let user_query := py_lower (default EmptyString query) in
  let lang := default "en" lang in
  let responses := responses_for lang in
  let response_text :=
    match match_rules responses lang user_query r_trend r_low r_high with
    | Some text => text
    | None =>
        match gemini with
        | GeminiDisabled => subscript responses "default"
        | GeminiEnabled send_message =>
            match send_message
                    [("user", system_prompt lang);
                     ("model", subscript responses "greeting")]
                    user_query with
            | Some text => text
            | None => subscript responses "default"
            end
        end
    end in
  mkResponse (ChatResponse response_text) 200.


(** The canned text of a language, [chat_responses[lang][key]]. *)
Definition canned (lang key : string) : string :=
  subscript (default [] (dict_get lang chat_responses)) key.

(** The object a heatmap response carries. *)
Definition state_prices (r : Response) : list (string * Z) :=
  match body r with
  | StatePrices l => l
  | _ => []
  end.

(** The responses the properties below name. *)
Definition reset_ok : Response := mkResponse (Msg "Password updated successfully") 200.
Definition reset_invalid : Response := mkResponse (Msg "Invalid or expired OTP") 400.
Definition bad_credentials : Response := mkResponse (Msg "Bad username or password") 401.

(* ===================================================================== *)
(** * Instances used to run the handlers on concrete requests *)
(* ===================================================================== *)

(** A transparent stand-in for werkzeug: the stored text is the salt, a
    dollar sign and the password; a password matches when the text after
    the salt is that password. *)
Definition plain_werkzeug : Werkzeug := {|
  hash_internal salt p := salt +:+ "$" +:+ p;
  hash_matches pwhash p :=
    match String.index 0 "$" pwhash with
    | Some i => String.eqb (String.substring (S i) (String.length pwhash) pwhash) p
    | None => false
    end
|}.

Definition plain_jwt : JwtExtended := {|
  sign_token identity role_claim := identity +:+ ":" +:+ role_claim
|}.

(** The two rows [init_db] inserts. *)
Definition farmer : User :=
  mkUser "farmer" (@hash_internal plain_werkzeug "s1" "farmer123") "farmer"
    "farmer@example.com" "+919876543210".

Definition analyst : User :=
  mkUser "analyst" (@hash_internal plain_werkzeug "s2" "analyst123") "analyst"
    "analyst@example.com" "+919876543211".

Definition seeded : State := mkState [farmer; analyst] ∅.

(** The same table while the code 123456 is outstanding for [farmer]. *)
Definition pending : State := mkState [farmer; analyst] (<["farmer" := "123456"]> ∅).

(** A Gemini session whose call always raises. *)
Definition gemini_down : Gemini := GeminiEnabled (fun _ _ => None).

(* ===================================================================== *)
(** * Registration and seeding *)
(* ===================================================================== *)

(** The three UNIQUE constraints of the [users] table. *)
Inductive Column := ColUsername | ColEmail | ColMobile.

Definition column_value (c : Column) (u : User) : string :=
  match c with
  | ColUsername => username u
  | ColEmail => email u
  | ColMobile => mobile u
  end.

(** The order in which SQLite examines the three constraints of a row: the
    one it finds violated first is the one the IntegrityError names. *)
Inductive CheckOrder :=
  | UsernameEmailMobile | UsernameMobileEmail
  | EmailUsernameMobile | EmailMobileUsername
  | MobileUsernameEmail | MobileEmailUsername.

Definition columns_of (o : CheckOrder) : list Column :=
  match o with
  | UsernameEmailMobile => [ColUsername; ColEmail; ColMobile]
  | UsernameMobileEmail => [ColUsername; ColMobile; ColEmail]
  | EmailUsernameMobile => [ColEmail; ColUsername; ColMobile]
  | EmailMobileUsername => [ColEmail; ColMobile; ColUsername]
  | MobileUsernameEmail => [ColMobile; ColUsername; ColEmail]
  | MobileEmailUsername => [ColMobile; ColEmail; ColUsername]
  end.

(** Some row of the table already has the value of [row] in column [c]. *)
Definition violates (row : User) (t : list User) (c : Column) : bool :=
  existsb (fun u => String.eqb (column_value c u) (column_value c row)) t.

(** [INSERT INTO users (...) VALUES (...)]: the row goes after the others,
    or the statement raises IntegrityError for a column ([inl]). *)
Definition insert_user (o : CheckOrder) (row : User) (t : list User)
    : Column + list User :=
  match find (violates row t) (columns_of o) with
  | Some c => inl c
  | None => inr (t ++ [row])%list
  end.

(** Truth value of a request field that is [None] or a string. *)
Definition truthy (v : option string) : bool :=
  match v with
  | Some (String _ _) => true
  | _ => false
  end.

Definition is_continuation (c : ascii) : bool :=
  (128 <=? nat_of_ascii c)%nat && (nat_of_ascii c <? 192)%nat.

(** [len(s)]: the number of code points, that is of the bytes that do not
    continue a UTF-8 sequence. *)
Fixpoint py_len (s : string) : nat :=
  match s with
  | EmptyString => 0%nat
  | String c r => ((if is_continuation c then 0 else 1) + py_len r)%nat
  end.

Definition conflict_message (c : Column) : string :=
  match c with
  | ColUsername => "Username already exists"
  | ColEmail => "Email already exists"
  | ColMobile => "Mobile number already exists"
  end.

(** The row [register] inserts: the role is always "farmer". *)
Definition new_user_row `{Werkzeug} (salt : string)
    (name password mail phone : option string) : User :=
  mkUser (default EmptyString name)
    (hash_internal salt (default EmptyString password)) "farmer"
    (default EmptyString mail) (default EmptyString phone).

(** The two tests [register] makes before it touches the database. *)
Definition fields_present (name password mail phone : option string) : bool :=
  truthy name && truthy password && truthy mail && truthy phone.

Definition mobile_format_ok (phone : option string) : bool :=
  String.prefix "+" (default EmptyString phone)
  && (10 <? py_len (default EmptyString phone))%nat.

(** [register()]: the four fields of the request; [salt] is the salt
    [generate_password_hash] draws. [get_db_conn] is called after the
    validation and a missing connection is caught by [except Exception]. *)
Definition register `{Werkzeug} (conn : bool) (o : CheckOrder) (salt : string)
    (name password mail phone : option string) (st : State)
    : Response * State :=
  if negb (fields_present name password mail phone)
  then (mkResponse (Msg "Missing required fields") 400, st)
  else if negb (mobile_format_ok phone)
  then (mkResponse
          (Msg "Please provide mobile number in international format (e.g., +919876543210)")
          400, st)
  else if negb conn
  then (mkResponse (Msg "An unexpected error occurred") 500, st)
  else
    match insert_user o (new_user_row salt name password mail phone) (users st) with
    | inr t => (mkResponse (Msg "User created successfully") 201,
                mkState t (otp_store st))
    | inl c => (mkResponse (Msg (conflict_message c)) 409, st)
    end.

(** The two rows [init_db] tries to insert. *)
Definition seed_farmer `{Werkzeug} (salt : string) : User :=
  mkUser "farmer" (hash_internal salt "farmer123") "farmer"
    "farmer@example.com" "+919876543210".

Definition seed_analyst `{Werkzeug} (salt : string) : User :=
  mkUser "analyst" (hash_internal salt "analyst123") "analyst"
    "analyst@example.com" "+919876543211".

(** An insert whose IntegrityError is caught and only reported. *)
Definition insert_or_skip (o : CheckOrder) (row : User) (t : list User)
    : list User :=
  match insert_user o row t with
  | inr t' => t'
  | inl _ => t
  end.

(** [init_db()] on the table (an absent table is the empty one). *)
Definition init_db `{Werkzeug} (conn : bool) (o : CheckOrder)
    (salt_farmer salt_analyst : string) (st : State) : State :=
  if negb conn then st
  else
    mkState
      (insert_or_skip o (seed_analyst salt_analyst)
         (insert_or_skip o (seed_farmer salt_farmer) (users st)))
      (otp_store st).

(** No two rows share a user name, an e-mail address or a mobile number. *)
Definition unique_columns (t : list User) : Prop :=
  forall c, NoDup (map (column_value c) t).

(** Every pending OTP belongs to a user of the table. *)
Definition otp_keys_registered (st : State) : Prop :=
  forall k, is_Some (otp_store st !! k) -> k ∈ map username (users st).

(** The values by which a row can be addressed. *)
Definition identifiers (u : User) : list string := [username u; email u; mobile u].

(** No value addresses two rows, also across columns. *)
Fixpoint distinct_identifiers (t : list User) : bool :=
  match t with
  | [] => true
  | u :: t' =>
      forallb (fun v => forallb (fun i => negb (matches_identifier i v)) (identifiers u)) t'
      && distinct_identifiers t'
  end.

(* ===================================================================== *)
(** * The other simulated analytics *)
(* ===================================================================== *)

(** The object [handle_market_comparison] returns. *)
Record MarketComparison := mkMarketComparison {
  labels : list string;
  market_prices : list Z      (* the key "prices" *)
}.

Definition comparison_labels : list string :=
  ["Delhi"; "Mumbai"; "Bengaluru"; "Kolkata"; "Chennai"; "Davanagere"].

(** [handle_market_comparison()]: [u i] is the draw
    [random.uniform(0.9, 1.1)] made for the [i]-th label. *)
Definition handle_market_comparison (commodity : option string)
    (r_trend r_low r_high : Q) (u : nat -> Q) : MarketComparison :=
  let price_report :=
    get_price_prediction (default "unknown" commodity) "Davanagere" 0
      r_trend r_low r_high in
  let base_price := average_price price_report in
  mkMarketComparison comparison_labels
    (imap (fun i _ => py_round (inject_Z base_price * u i)%Q) comparison_labels).

(** The object [get_weather_data] returns. *)
Record Weather := mkWeather {
  market_shown : string;      (* the key "market" *)
  temp : Z;
  condition : string;
  impact : string
}.

Definition conditions : list string :=
  ["Sunny"; "Partly Cloudy"; "Cloudy"; "Light Rain"; "Humid"; "Rainy"].

Definition temps : list (string * (Z * Z)) :=
  [("Delhi", (28, 42)); ("Mumbai", (25, 34)); ("Bengaluru", (20, 32));
   ("Kolkata", (26, 36))].

(** [temps.get(market, (24, 38))] *)
Definition temp_range (market : string) : Z * Z :=
  default (24, 38) (dict_get market temps).

Definition impact_stable : string :=
  "Conditions are stable. No immediate significant impact on crops expected.".
Definition impact_rain : string :=
  "Rain is favorable for sowing, potentially stabilizing prices.".
Definition impact_heat : string :=
  "High temperatures may stress crops, potentially leading to a slight price increase.".

(** [get_weather_data(market, lat, lon)]: [temp_draw] is the value of
    [random.randint] on the range of the market and [pick] the index
    [random.choice] takes in [conditions]. *)
Definition get_weather_data (market : string) (lat lon : option string)
    (temp_draw : Z) (pick : nat) : Weather :=
  let display_market :=
    if truthy lat && truthy lon then "Your Location" else market in
  let temp := temp_draw in
  let condition := default "Sunny" (conditions !! pick) in
  let impact :=
    if py_in "Rain" condition then impact_rain
    else if py_in "Sunny" condition && (38 <? temp)%Z then impact_heat
    else impact_stable in
  mkWeather display_market temp condition impact.

(** [handle_weather()]: the query arguments, [None] when absent. *)
Definition handle_weather (market lat lon : option string)
    (temp_draw : Z) (pick : nat) : Weather :=
  get_weather_data (default "Delhi" market) lat lon temp_draw pick.




(** One entry of the list [get_xai_insights] builds. *)
Record Factor := mkFactor {
  factor : string;
  factor_impact : string;     (* the key "impact" *)
  factor_reason : string;     (* the key "reason" *)
  importance : Q
}.

(** The list [factors]: [rain_positive] is whether [random.choice] took
    'Positive', the five numbers are the [random.uniform] draws in order. *)
Definition xai_factors (rain_positive : bool) (i1 i2 i3 i4 i5 : Q) : list Factor :=
  [mkFactor "Recent rainfall" (if rain_positive then "Positive" else "Negative")
     "Influences soil moisture." i1;
   mkFactor "Mandi arrivals" "Negative" "Higher supply typically lowers prices." i2;
   mkFactor "News sentiment" "Positive" "Positive news boosts market confidence." i3;
   mkFactor "Global market trends" "Negative"
     "International prices affect domestic rates." i4;
   mkFactor "Fuel prices" "Negative" "Increases transportation costs." i5].

(** [sorted(l, key=importance, reverse=True)]: entries of equal importance
    keep their order. *)
Fixpoint insert_desc (x : Factor) (l : list Factor) : list Factor :=
  match l with
  | [] => [x]
  | y :: l' =>
      if Qle_bool (importance y) (importance x) then x :: l
      else y :: insert_desc x l'
  end.

Definition sorted_desc (l : list Factor) : list Factor :=
  foldr insert_desc [] l.

(** [get_xai_insights()]: [shuffle] is what [random.shuffle] does to the
    list. *)
Definition get_xai_insights (rain_positive : bool) (i1 i2 i3 i4 i5 : Q)
    (shuffle : list Factor -> list Factor) : list Factor :=
  let factors := shuffle (xai_factors rain_positive i1 i2 i3 i4 i5) in
  sorted_desc (take 3 factors).

(** The object [get_historical_data] returns. *)
Record ChartData := mkChartData {
  dates : list string;
  prices : list Q
}.

(** [get_historical_data(predicted_price, days_ahead)]: [day_text d] is the
    '%Y-%m-%d' text of the day [d] days after today, [sqrt_float i] the float
    [i**0.5], [r_base] the draw [random.uniform(-0.02, 0.05)], and [r_a i],
    [r_b i] the draws [random.uniform(-15, 20)] and [random.uniform(-25, 25)]
    of the round for [i]. *)
Definition get_historical_data (day_text : Z -> string) (sqrt_float : Z -> Q)
    (predicted_price : Q) (days_ahead : Z)
    (r_base : Q) (r_a r_b : Z -> Q) : ChartData :=
  let base := (predicted_price / (1 + r_base))%Q in
  let rounds := rev (seqZ 1 30) in
  let dates := map (fun i => day_text (- i)) rounds in
  let prices :=
    map (fun i => inject_Z (py_round (base + sqrt_float i * r_a i + r_b i)%Q)) rounds in
  let dates := (dates ++ [day_text 0])%list in
  let prices := (prices ++ [default base (last prices)])%list in
  let dates := (dates ++ [day_text days_ahead])%list in
  let prices := (prices ++ [predicted_price])%list in
  mkChartData dates prices.

(** The object [handle_predict] returns. *)
Record Prediction := mkPrediction {
  prediction_report : PriceReport;
  predicted_modal_price_INR : Z;    (* inside the key "prediction" *)
  chartData : ChartData;
  xai : list Factor
}.

(** [handle_predict()]: [daysAhead] is the integer of the request, [None]
    when the key is absent. *)
Definition handle_predict (daysAhead : option Z) (market commodity : string)
    (r_trend r_low r_high : Q)
    (day_text : Z -> string) (sqrt_float : Z -> Q) (r_base : Q) (r_a r_b : Z -> Q)
    (rain_positive : bool) (i1 i2 i3 i4 i5 : Q)
    (shuffle : list Factor -> list Factor) : Prediction :=
  let days := default 7 daysAhead in
  let price_prediction_report :=
    get_price_prediction commodity market days r_trend r_low r_high in
  mkPrediction price_prediction_report
    (average_price price_prediction_report)
    (get_historical_data day_text sqrt_float
       (inject_Z (average_price price_prediction_report)) days r_base r_a r_b)
    (get_xai_insights rain_positive i1 i2 i3 i4 i5 shuffle).

(* ===================================================================== *)
(** * Properties of the users table *)
(* ===================================================================== *)

Lemma matches_identifier_set_password_hash i h u :
  matches_identifier i (set_password_hash h u) = matches_identifier i u.
Proof. reflexivity. Qed.

(** The UPDATE changes no column the identifier query reads, so the query
    finds the same row, with the new hash when it is the updated user. *)
Lemma select_by_identifier_update identifier h name t :
  select_by_identifier identifier (update_password_hash h name t) =
  (fun u => if String.eqb (username u) name then set_password_hash h u else u)
    <$> select_by_identifier identifier t.
Proof.
  destruct identifier as [i|]; [|reflexivity].
  simpl. induction t as [|row t IH]; [reflexivity|].
  simpl. destruct (String.eqb (username row) name) eqn:E.
  - rewrite matches_identifier_set_password_hash.
    destruct (matches_identifier i row); [simpl; now rewrite E | exact IH].
  - destruct (matches_identifier i row); [simpl; now rewrite E | exact IH].
Qed.

(* ===================================================================== *)
(** * Properties of the password-reset protocol *)
(* ===================================================================== *)

Section Identity.
Context `{Werkzeug} `{JwtExtended}.

Lemma send_otp_found conn tw draw identifier st u :
  conn = true ->
  select_by_identifier identifier (users st) = Some u ->
  status (send_otp conn tw draw identifier st).1 = 200 ∧
  (send_otp conn tw draw identifier st).2 =
    mkState (users st) (<[username u := pretty draw]> (otp_store st)).
Proof.
  intros -> Hsel. unfold send_otp. simpl. rewrite Hsel.
  destruct tw; simpl; split; reflexivity.
Qed.

Lemma reset_password_accepts salt identifier code pw st u :
  select_by_identifier identifier (users st) = Some u ->
  otp_store st !! username u = Some code ->
  reset_password true salt identifier (Some code) (Some pw) st =
    (reset_ok,
     mkState (update_password_hash (hash_internal salt pw) (username u) (users st))
             (delete (username u) (otp_store st))).
Proof.
  intros Hsel Hcode. unfold reset_password, otp_differs. simpl.
  rewrite Hsel, Hcode. simpl.
  rewrite !bool_decide_eq_true_2 by eauto. reflexivity.
Qed.

Lemma reset_password_rejects salt identifier otp new_password st u :
  select_by_identifier identifier (users st) = Some u ->
  otp_store st !! username u = None ∨ otp_store st !! username u ≠ otp ->
  reset_password true salt identifier otp new_password st = (reset_invalid, st).
Proof.
  intros Hsel Hbad. unfold reset_password, otp_differs. simpl. rewrite Hsel.
  destruct Hbad as [Hnone | Hdiff].
  - rewrite Hnone. rewrite bool_decide_eq_false_2 by (intros [? ?]; discriminate).
    reflexivity.
  - rewrite (bool_decide_eq_false_2 (_ = otp)) by exact Hdiff.
    simpl. rewrite orb_true_r. reflexivity.
Qed.

(** C1: with the database reachable, after [send_otp] for an identifier that
    resolves to a user, the code it issued is the one stored for that user;
    [reset_password] with that code answers 200 and removes the OTP entry;
    the identifier then resolves to the same user name, e-mail address,
    mobile number and role with the hash of the new password as
    [password_hash]; a second [reset_password] with the same code answers
    400 and changes nothing. *)
Theorem issued_code_resets_once
    (tw : Twilio) (draw : Z) (salt salt' ident pw : string)
    (pw' : option string) (st : State) (u : User) :
  select_by_identifier (Some ident) (users st) = Some u ->
  let sent := send_otp true tw draw (Some ident) st in
  let code := pretty draw in
  let first := reset_password true salt (Some ident) (Some code) (Some pw) sent.2 in
  let second := reset_password true salt' (Some ident) (Some code) pw' first.2 in
  status sent.1 = 200 ∧
  otp_store sent.2 !! username u = Some code ∧
  first.1 = reset_ok ∧
  select_by_identifier (Some ident) (users first.2) =
    Some (mkUser (username u) (hash_internal salt pw) (role u) (email u) (mobile u)) ∧
  (forall row, select_by_identifier (Some ident) (users first.2) = Some row ->
               password_hash row = hash_internal salt pw) ∧
  otp_store first.2 !! username u = None ∧
  second = (reset_invalid, first.2).
Proof.
  intros Hsel sent code first second.
  destruct (send_otp_found true tw draw (Some ident) st u eq_refl Hsel)
    as [Hstatus Hsent].
  fold sent in Hstatus, Hsent.
  assert (Hcode : otp_store sent.2 !! username u = Some code).
  { rewrite Hsent. simpl. apply lookup_insert_eq. }
  assert (Hsel1 : select_by_identifier (Some ident) (users sent.2) = Some u).
  { rewrite Hsent. exact Hsel. }
  pose proof (reset_password_accepts salt (Some ident) code pw sent.2 u Hsel1 Hcode)
    as Hfirst.
  fold first in Hfirst.
  assert (Hsel2 : select_by_identifier (Some ident) (users first.2) =
                  Some (mkUser (username u) (hash_internal salt pw) (role u)
                          (email u) (mobile u))).
  { rewrite Hfirst. cbn [snd users].
    rewrite select_by_identifier_update, Hsel1. simpl.
    now rewrite String.eqb_refl. }
  assert (Hgone : otp_store first.2 !! username u = None).
  { rewrite Hfirst. cbn [snd otp_store]. apply lookup_delete_eq. }
  split; [exact Hstatus|]. split; [exact Hcode|].
  split; [now rewrite Hfirst|]. split; [exact Hsel2|].
  split; [|split; [exact Hgone|]].
  - intros row Hrow. rewrite Hsel2 in Hrow. injection Hrow as <-. reflexivity.
  - subst second. apply (reset_password_rejects _ _ _ _ _ _ Hsel2).
    left. exact Hgone.
Qed.

(** C2: for a resolved user, when no OTP is stored for that user or the
    submitted value is not the stored one, [reset_password] answers 400
    'Invalid or expired OTP' and leaves the table and the OTP store as they
    were. *)
Theorem reset_needs_exact_otp
    (salt : string) (identifier otp new_password : option string)
    (st : State) (u : User) :
  select_by_identifier identifier (users st) = Some u ->
  otp_store st !! username u = None ∨ otp_store st !! username u ≠ otp ->
  reset_password true salt identifier otp new_password st = (reset_invalid, st).
Proof. apply reset_password_rejects. Qed.

(** C3, as amended: a second [send_otp] for the same user replaces the stored
    code by the new one, and when the two codes drawn differ,
    [reset_password] with the first code answers 400 and changes nothing. *)
Theorem second_otp_replaces_first
    (tw1 tw2 : Twilio) (draw1 draw2 : Z) (salt ident : string)
    (new_password : option string) (st : State) (u : User) :
  select_by_identifier (Some ident) (users st) = Some u ->
  draw1 ≠ draw2 ->
  let st1 := (send_otp true tw1 draw1 (Some ident) st).2 in
  let st2 := (send_otp true tw2 draw2 (Some ident) st1).2 in
  otp_store st1 !! username u = Some (pretty draw1) ∧
  otp_store st2 !! username u = Some (pretty draw2) ∧
  reset_password true salt (Some ident) (Some (pretty draw1)) new_password st2
    = (reset_invalid, st2).
Proof.
  intros Hsel Hne st1 st2.
  destruct (send_otp_found true tw1 draw1 (Some ident) st u eq_refl Hsel)
    as [_ H1].
  fold st1 in H1.
  assert (Hsel1 : select_by_identifier (Some ident) (users st1) = Some u)
    by (rewrite H1; exact Hsel).
  destruct (send_otp_found true tw2 draw2 (Some ident) st1 u eq_refl Hsel1)
    as [_ H2].
  fold st2 in H2.
  assert (Hsel2 : select_by_identifier (Some ident) (users st2) = Some u)
    by (rewrite H2; exact Hsel1).
  assert (Hc2 : otp_store st2 !! username u = Some (pretty draw2))
    by (rewrite H2; apply lookup_insert_eq).
  split; [rewrite H1; apply lookup_insert_eq|].
  split; [exact Hc2|].
  apply (reset_password_rejects _ _ _ _ _ _ Hsel2). right.
  rewrite Hc2. intros [= Heq]. apply Hne. symmetry.
  exact (inj pretty _ _ Heq).
Qed.

(** When the request carries a password text, a login for a user name with
    no row and a login whose password does not match the stored hash get the
    same response, 401 'Bad username or password'. *)
Lemma login_failures_coincide
    (name name' password : option string) (p' : string)
    (st st' : State) (u' : User) :
  select_by_username name (users st) = None ->
  select_by_username name' (users st') = Some u' ->
  hash_matches (password_hash u') p' = false ->
  login true name password st = bad_credentials ∧
  login true name' (Some p') st' = bad_credentials.
Proof.
  intros Hnone Hsome Hwrong. unfold login. simpl.
  rewrite Hnone, Hsome. simpl. rewrite Hwrong. split; reflexivity.
Qed.

(** When the request carries no password, [check_password_hash] raises for a
    user name that has a row, and is not called for one that has none. *)
Lemma login_absent_password (name name' : option string) (st st' : State) (u : User) :
  select_by_username name (users st) = Some u ->
  select_by_username name' (users st') = None ->
  login true name None st = mkResponse (Msg "Login failed") 500 ∧
  login true name' None st' = mkResponse (Msg "Bad username or password") 401.
Proof.
  intros Hsome Hnone. unfold login. simpl. rewrite Hsome, Hnone.
  split; reflexivity.
Qed.

(** C8: for an identifier that resolves to a user, [send_otp] answers 200
    whether the SMS was sent, the provider raised or no provider is
    configured; in each case the issued code is stored for that user and a
    following [reset_password] with it answers 200. *)
Theorem send_otp_ok_whatever_sms
    (tw : Twilio) (draw : Z) (salt ident pw : string) (st : State) (u : User) :
  select_by_identifier (Some ident) (users st) = Some u ->
  let sent := send_otp true tw draw (Some ident) st in
  status sent.1 = 200 ∧
  sent.2 = mkState (users st) (<[username u := pretty draw]> (otp_store st)) ∧
  otp_store sent.2 !! username u = Some (pretty draw) ∧
  (reset_password true salt (Some ident) (Some (pretty draw)) (Some pw) sent.2).1
    = reset_ok.
Proof.
  intros Hsel sent.
  destruct (send_otp_found true tw draw (Some ident) st u eq_refl Hsel)
    as [Hstatus Hsent].
  fold sent in Hstatus, Hsent.
  assert (Hcode : otp_store sent.2 !! username u = Some (pretty draw))
    by (rewrite Hsent; apply lookup_insert_eq).
  repeat split; try assumption.
  erewrite reset_password_accepts; [reflexivity | | exact Hcode].
  rewrite Hsent. exact Hsel.
Qed.

(** C10: for a user with a stored OTP, a [reset_password] with another value
    answers 400 and leaves the state, hence the stored OTP, as it was; a
    following [reset_password] with the stored code answers 200. *)
Theorem failed_reset_keeps_otp
    (salt salt' pw code : string) (identifier wrong new_password : option string)
    (st : State) (u : User) :
  select_by_identifier identifier (users st) = Some u ->
  otp_store st !! username u = Some code ->
  wrong ≠ Some code ->
  let failed := reset_password true salt identifier wrong new_password st in
  failed = (reset_invalid, st) ∧
  otp_store failed.2 !! username u = Some code ∧
  (reset_password true salt' identifier (Some code) (Some pw) failed.2).1 = reset_ok.
Proof.
  intros Hsel Hcode Hwrong failed.
  assert (Hfailed : failed = (reset_invalid, st)).
  { apply (reset_password_rejects _ _ _ _ _ _ Hsel). right.
    rewrite Hcode. congruence. }
  rewrite Hfailed. cbn [snd].
  repeat split; [exact Hcode|].
  now rewrite (reset_password_accepts _ _ _ _ _ _ Hsel Hcode).
Qed.

End Identity.

(* ===================================================================== *)
(** * Properties of rounding and of the price format *)
(* ===================================================================== *)

Lemma py_round_near (x : Q) :
  (x - (1 # 2) <= inject_Z (py_round x) /\ inject_Z (py_round x) <= x + (1 # 2))%Q.
Proof.
  unfold py_round.
  pose proof (Qfloor_le x) as Hlo.
  pose proof (Qlt_floor x) as Hhi.
  rewrite inject_Z_plus in Hhi. change (inject_Z 1) with 1%Q in Hhi.
  destruct (Qcompare_spec (x - inject_Z (Qfloor x)) (1 # 2)) as [He | Hl | Hg].
  - destruct (Z.even (Qfloor x)).
    + split; lra.
    + rewrite inject_Z_plus. change (inject_Z 1) with 1%Q. split; lra.
  - split; lra.
  - rewrite inject_Z_plus. change (inject_Z 1) with 1%Q. split; lra.
Qed.

Lemma py_round_comp (x y : Q) : (x == y)%Q -> py_round x = py_round y.
Proof.
  intros E. unfold py_round.
  rewrite (Qfloor_comp _ _ E).
  assert (E' : (x - inject_Z (Qfloor y) == y - inject_Z (Qfloor y))%Q)
    by (rewrite E; reflexivity).
  now rewrite (Qcompare_comp _ _ E' (1 # 2) (1 # 2) (Qeq_refl _)).
Qed.

Example py_round_ties :
  map py_round [1 # 2; 3 # 2; 5 # 2; -1 # 2; 7 # 4; 205257 # 100]%Q = [0; 2; 2; 0; 2; 2053].
Proof. reflexivity. Qed.

Example format_comma_2f_samples :
  map format_comma_2f [0; 999; 1000; 2310; 1234567; -1234] =
  ["0.00"; "999.00"; "1,000.00"; "2,310.00"; "1,234,567.00"; "-1,234.00"].
Proof. vm_compute. reflexivity. Qed.

Example py_in_samples :
  py_in "hi" "namaste" = false /\ py_in "hi" "this" = true /\
  py_in "rice" "price" = true /\ py_in "" "" = true.
Proof. repeat split. Qed.

Example py_capitalize_samples :
  py_capitalize "mumbai" = "Mumbai" /\ py_capitalize "wHEAT" = "Wheat" /\
  py_capitalize "गेहूं" = "गेहूं".
Proof. repeat split. Qed.

(** An integer between two rationals, read back on [Z]. *)
Lemma inject_Z_le (a b : Z) : (inject_Z a <= inject_Z b)%Q -> a <= b.
Proof. rewrite <- Zle_Qle. trivial. Qed.

(* ===================================================================== *)
(** * Properties of the simulated analytics *)
(* ===================================================================== *)

(** The price the table (or its default) gives for a commodity name. *)
Lemma base_price_range (k : string) :
  1200 <= default 2500 (dict_get k base_prices) <= 6000.
Proof.
  unfold base_prices. cbn [dict_get].
  repeat (destruct (String.eqb _ k); [cbn; lia|]).
  cbn. lia.
Qed.

(** With a horizon of 0 days in Delhi the average is 105% of the table price,
    rounded, whatever the draws. *)
Lemma delhi_today_average (commodity : string) (r_trend r_low r_high : Q) :
  average_price (get_price_prediction commodity "Delhi" 0 r_trend r_low r_high) =
  py_round (inject_Z (default 2500%Z (dict_get (py_lower commodity) base_prices))
            * (105 # 100))%Q.
Proof.
  unfold get_price_prediction. cbn [average_price].
  apply py_round_comp.
  change (existsb (String.eqb (py_lower "Delhi")) ["mumbai"; "delhi"]) with true.
  cbv iota. change (inject_Z 0) with 0%Q. ring.
Qed.

Lemma delhi_today_average_pos (commodity : string) (r_trend r_low r_high : Q) :
  0 <= average_price (get_price_prediction commodity "Delhi" 0 r_trend r_low r_high).
Proof.
  rewrite delhi_today_average.
  pose proof (base_price_range (py_lower commodity)) as [Hlo _].
  set (p := default 2500 (dict_get (py_lower commodity) base_prices)) in *.
  destruct (py_round_near (inject_Z p * (105 # 100))) as [Hnear _].
  apply inject_Z_le.
  assert (Hp : (inject_Z 1200 <= inject_Z p)%Q) by (rewrite <- Zle_Qle; exact Hlo).
  change (inject_Z 1200) with 1200%Q in Hp. change (inject_Z 0) with 0%Q.
  lra.
Qed.

(** Each entry of the heatmap is the rounding of the base times one draw. *)
Lemma heatmap_entry (commodity : option string) (r_trend r_low r_high : Q)
    (u : nat -> Q) (state : string) (v : Z) :
  (state, v) ∈ state_prices (handle_heatmap_data commodity r_trend r_low r_high u) ->
  exists i : nat,
    v = py_round
          (inject_Z (average_price
                       (get_price_prediction (default "unknown" commodity) "Delhi" 0
                          r_trend r_low r_high)) * u i)%Q.
Proof.
  unfold handle_heatmap_data, state_prices. cbn [body].
  set (b := average_price _). clearbody b. intros Hin.
  apply elem_of_lookup_imap_1 in Hin as (i & st & Heq & _).
  exists i. exact (f_equal snd Heq).
Qed.

(** C5, as amended: every value of the heatmap is the rounding of [b * u]
    for a draw [u] between 0.85 and 1.15, where [b] is the Delhi average of
    the day (105% of the table price, rounded); so it lies within 15% of [b]
    up to the half unit of the rounding. *)
Theorem heatmap_prices_within_band
    (commodity : option string) (r_trend r_low r_high : Q) (u : nat -> Q)
    (state : string) (v : Z) :
  (forall i, (85 # 100 <= u i)%Q /\ (u i <= 115 # 100)%Q) ->
  (state, v) ∈ state_prices (handle_heatmap_data commodity r_trend r_low r_high u) ->
  let table_price :=
    default 2500 (dict_get (py_lower (default "unknown" commodity)) base_prices) in
  let b := py_round (inject_Z table_price * (105 # 100))%Q in
  ((85 # 100) * inject_Z b - (1 # 2) <= inject_Z v)%Q /\
  (inject_Z v <= (115 # 100) * inject_Z b + (1 # 2))%Q.
Proof.
  intros Hu Hin table_price b.
  apply heatmap_entry in Hin as [i ->].
  pose proof (delhi_today_average_pos (default "unknown" commodity)
                r_trend r_low r_high) as Hpos.
  rewrite delhi_today_average in *. fold table_price in Hpos |- *. fold b in Hpos |- *.
  destruct (Hu i) as [Hlo Hhi].
  destruct (py_round_near (inject_Z b * u i)) as [Hn1 Hn2].
  assert (Hb : (0 <= inject_Z b)%Q).
  { change 0%Q with (inject_Z 0). rewrite <- Zle_Qle. exact Hpos. }
  assert (H1 : ((85 # 100) * inject_Z b <= u i * inject_Z b)%Q)
    by (apply Qmult_le_compat_r; assumption).
  assert (H2 : (u i * inject_Z b <= (115 # 100) * inject_Z b)%Q)
    by (apply Qmult_le_compat_r; assumption).
  split; lra.
Qed.

(** C5 as stated fails: for onion (table price 1700, Delhi average of the day
    1785) and the draw 1.1499, the value 2053 is above 115% of either. *)
Lemma heatmap_price_above_band :
  let u := fun _ : nat => (11499 # 10000)%Q in
  ((85 # 100 <= u 5%nat)%Q /\ (u 5%nat <= 115 # 100)%Q) /\
  dict_get (py_lower "onion") base_prices = Some 1700 /\
  average_price (get_price_prediction "onion" "Delhi" 0 0 (1 # 10) (1 # 10)) = 1785 /\
  ("Goa", 2053) ∈ state_prices (handle_heatmap_data (Some "onion") 0 (1 # 10) (1 # 10) u) /\
  ~ (inject_Z 2053 <= (115 # 100) * inject_Z 1785)%Q /\
  ~ (inject_Z 2053 <= (115 # 100) * inject_Z 1700)%Q.
Proof.
  intros u. repeat split.
  - unfold u, Qle. simpl. lia.
  - unfold u, Qle. simpl. lia.
  - apply (list_elem_of_lookup_2 _ 5%nat). vm_compute. reflexivity.
  - unfold Qle. simpl. lia.
  - unfold Qle. simpl. lia.
Qed.

(* ===================================================================== *)
(** * Properties of the chat intent router *)
(* ===================================================================== *)

(** The average for wheat in Mumbai a week ahead, as a function of the draw. *)
Lemma wheat_mumbai_average (r_trend r_low r_high : Q) :
  average_price (get_price_prediction "wheat" "Mumbai" 7 r_trend r_low r_high) =
  py_round ((2200 + 7 * r_trend) * (105 # 100))%Q.
Proof. reflexivity. Qed.

Lemma wheat_mumbai_average_range (r_trend r_low r_high : Q) :
  (-5 <= r_trend)%Q /\ (r_trend <= 10)%Q ->
  2273 <= average_price (get_price_prediction "wheat" "Mumbai" 7 r_trend r_low r_high)
       <= 2384.
Proof.
  intros [Hlo Hhi]. rewrite wheat_mumbai_average.
  destruct (py_round_near ((2200 + 7 * r_trend) * (105 # 100))) as [H1 H2].
  set (p := py_round _) in *. clearbody p.
  assert (H3 : (227275 # 100 <= inject_Z p)%Q) by lra.
  assert (H4 : (inject_Z p <= 2384 # 1)%Q) by lra.
  unfold Qle in H3, H4. simpl in H3, H4. lia.
Qed.

(** The format of a price of the range above: the thousands digit, a comma,
    the three other digits and two zero decimals. *)
Lemma format_comma_2f_two_thousand (p : Z) :
  2273 <= p <= 2384 ->
  format_comma_2f p = "2," +:+ pretty (p - 2000) +:+ ".00".
Proof.
  intros Hp.
  assert (Hall : forallb
            (fun q => String.eqb (format_comma_2f q)
                        ("2," +:+ pretty (q - 2000) +:+ ".00"))
            (seqZ 2273 112) = true) by (vm_compute; reflexivity).
  rewrite forallb_forall in Hall.
  apply String.eqb_eq, Hall, list_elem_of_In, elem_of_seqZ. lia.
Qed.

(** What the rules give for the wheat question, for any response table. *)
Lemma match_rules_wheat_mumbai (responses : list (string * string))
    (r_trend r_low r_high : Q) :
  match_rules responses "en" "what is the price of wheat in mumbai"
    r_trend r_low r_high =
  Some (py_format (subscript responses "price_detail")
          [("commodity", "Wheat"); ("market", "Mumbai");
           ("price",
            format_comma_2f
              (average_price
                 (get_price_prediction "wheat" "Mumbai" 7 r_trend r_low r_high)))]).
Proof. reflexivity. Qed.

(** When no rule matches and Gemini is off or its call raises, the text is
    the default one of the table. *)
Lemma handle_chat_unmatched (gemini : Gemini) (r_trend r_low r_high : Q)
    (query lang : option string) :
  match_rules (responses_for (default "en" lang)) (default "en" lang)
    (py_lower (default EmptyString query)) r_trend r_low r_high = None ->
  (gemini = GeminiDisabled \/
   exists send_message,
     gemini = GeminiEnabled send_message /\
     send_message
       [("user", system_prompt (default "en" lang));
        ("model", subscript (responses_for (default "en" lang)) "greeting")]
       (py_lower (default EmptyString query)) = None) ->
  handle_chat gemini r_trend r_low r_high query lang =
  mkResponse
    (ChatResponse (subscript (responses_for (default "en" lang)) "default")) 200.
Proof.
  intros Hrules Hgem. unfold handle_chat. rewrite Hrules.
  destruct Hgem as [-> | (send & -> & Hnone)]; [reflexivity|].
  now rewrite Hnone.
Qed.

(** C6, as amended: the query "नमस्ते", the greeting keyword in Devanagari
    script, with language tag "hi" gets the Hindi greeting, whatever Gemini
    is and whatever the draws. *)
Theorem devanagari_namaste_gets_greeting
    (gemini : Gemini) (r_trend r_low r_high : Q) :
  handle_chat gemini r_trend r_low r_high (Some "नमस्ते") (Some "hi") =
    mkResponse (ChatResponse (canned "hi" "greeting")) 200 /\
  canned "hi" "greeting" =
    "नमस्ते! मैं आज एग्रोबर्ट में आपकी कैसे सहायता कर सकता हूँ?".
Proof. split; reflexivity. Qed.

(** C6 as stated fails: "namaste" in Latin script contains none of the
    greeting keywords and matches no other rule, so with Gemini disabled the
    answer is the Hindi default text, which is not the greeting. *)
Lemma latin_namaste_gets_default :
  any_in greeting_keywords (py_lower "namaste") = false /\
  handle_chat GeminiDisabled 0 0 0 (Some "namaste") (Some "hi") =
    mkResponse (ChatResponse (canned "hi" "default")) 200 /\
  handle_chat GeminiDisabled 0 0 0 (Some "namaste") (Some "hi") <>
    mkResponse (ChatResponse (canned "hi" "greeting")) 200.
Proof.
  split; [reflexivity|]. split; [reflexivity|].
  vm_compute. discriminate.
Qed.

(** C7: the wheat question in English gets the price-detail sentence naming
    Wheat and Mumbai; the price in it is the average of the simulation for
    wheat in Mumbai seven days ahead, which for a draw between -5 and 10 lies
    between 2273 and 2384 and is written with the thousands separator and two
    decimals. *)
Theorem wheat_in_mumbai_price_detail
    (gemini : Gemini) (r_trend r_low r_high : Q) :
  (-5 <= r_trend)%Q /\ (r_trend <= 10)%Q ->
  let price :=
    average_price (get_price_prediction "wheat" "Mumbai" 7 r_trend r_low r_high) in
  handle_chat gemini r_trend r_low r_high
    (Some "what is the price of wheat in mumbai") (Some "en") =
    mkResponse
      (ChatResponse
         ("The current simulated price for Wheat in Mumbai is around ₹"
          +:+ format_comma_2f price +:+ "/quintal. The trend is positive."))
      200 /\
  2273 <= price <= 2384 /\
  format_comma_2f price = "2," +:+ pretty (price - 2000) +:+ ".00".
Proof.
  intros Hdraw price.
  pose proof (wheat_mumbai_average_range r_trend r_low r_high Hdraw) as Hrange.
  fold price in Hrange.
  split; [|split; [exact Hrange | exact (format_comma_2f_two_thousand price Hrange)]].
  unfold handle_chat.
  change (py_lower (default EmptyString (Some "what is the price of wheat in mumbai")))
    with "what is the price of wheat in mumbai".
  change (default "en" (Some "en")) with "en".
  cbv zeta. rewrite match_rules_wheat_mumbai. fold price.
  generalize (format_comma_2f price). intros text. reflexivity.
Qed.

(** The default sentence of each table, read from [chat_responses]. *)
Lemma default_sentence_of (tag : string) :
  subscript (responses_for tag) "default" =
  if String.eqb tag "hi"
  then "मैं मूल्य भविष्यवाणी, मौसम के प्रभाव और फसल की सिफारिशों में मदद कर सकता हूँ।"
  else if String.eqb tag "kn"
  then "ನಾನು ಬೆಲೆ ಮುನ್ಸೂಚನೆಗಳು, ಹವಾಮಾನದ ಪ್ರಭಾವ ಮತ್ತು ಬೆಳೆ ಶಿಫಾರಸುಗಳೊಂದಿಗೆ ಸಹಾಯ ಮಾಡಬಹುದು."
  else "I can help with price predictions, weather impact, and crop recommendations.".
Proof.
  unfold responses_for, chat_responses. cbn [dict_get].
  destruct (String.eqb_spec "en" tag) as [<- | Hen]; [reflexivity|].
  destruct (String.eqb_spec "hi" tag) as [<- | Hhi]; [reflexivity|].
  destruct (String.eqb_spec "kn" tag) as [<- | Hkn]; [reflexivity|].
  destruct (String.eqb_spec tag "hi") as [-> | _]; [contradiction|].
  destruct (String.eqb_spec tag "kn") as [-> | _]; [contradiction|].
  reflexivity.
Qed.

(** C9: for a query that is a text (or an absent key), when no rule matches
    it and Gemini is disabled or its call raises, [handle_chat] answers 200
    with the default sentence of the language: the Hindi one for "hi", the
    Kannada one for "kn", the English one for every other tag. The failure
    of the call is not passed on. *)
Theorem chat_default_when_gemini_fails
    (gemini : Gemini) (r_trend r_low r_high : Q) (query lang : option string) :
  match_rules (responses_for (default "en" lang)) (default "en" lang)
    (py_lower (default EmptyString query)) r_trend r_low r_high = None ->
  (gemini = GeminiDisabled \/
   exists send_message,
     gemini = GeminiEnabled send_message /\
     send_message
       [("user", system_prompt (default "en" lang));
        ("model", subscript (responses_for (default "en" lang)) "greeting")]
       (py_lower (default EmptyString query)) = None) ->
  handle_chat gemini r_trend r_low r_high query lang =
  mkResponse
    (ChatResponse
       (if String.eqb (default "en" lang) "hi"
        then "मैं मूल्य भविष्यवाणी, मौसम के प्रभाव और फसल की सिफारिशों में मदद कर सकता हूँ।"
        else if String.eqb (default "en" lang) "kn"
        then "ನಾನು ಬೆಲೆ ಮುನ್ಸೂಚನೆಗಳು, ಹವಾಮಾನದ ಪ್ರಭಾವ ಮತ್ತು ಬೆಳೆ ಶಿಫಾರಸುಗಳೊಂದಿಗೆ ಸಹಾಯ ಮಾಡಬಹುದು."
        else "I can help with price predictions, weather impact, and crop recommendations."))
    200.
Proof.
  intros Hrules Hgem.
  rewrite (handle_chat_unmatched _ _ _ _ _ _ Hrules Hgem).
  now rewrite default_sentence_of.
Qed.

(* ===================================================================== *)
(** * Concrete runs *)
(* ===================================================================== *)

(** C3 as stated fails: when the second draw equals the first, the code of
    the first request is the stored one again and [reset_password] with it
    answers 200. *)
Lemma same_draw_keeps_first_code_valid :
  let st1 := (send_otp true TwilioNotConfigured 123456 (Some "farmer") seeded).2 in
  let st2 := (send_otp true TwilioNotConfigured 123456 (Some "farmer") st1).2 in
  select_by_identifier (Some "farmer") (users seeded) = Some farmer /\
  otp_store st1 !! "farmer" = Some "123456" /\
  (@reset_password plain_werkzeug true "s3" (Some "farmer") (Some "123456")
     (Some "harvest42") st2).1 = reset_ok /\
  (@reset_password plain_werkzeug true "s3" (Some "farmer") (Some "123456")
     (Some "harvest42") st2).1 <> reset_invalid.
Proof.
  intros st1 st2. split; [reflexivity|]. split; [vm_compute; reflexivity|].
  split; [vm_compute; reflexivity|]. vm_compute. discriminate.
Qed.

(** The round trip for [farmer], addressed by e-mail, while the SMS provider raises. *)
Lemma issued_code_resets_once_witness :
  select_by_identifier (Some "farmer@example.com") (users seeded) = Some farmer /\
  let sent := send_otp true TwilioRaises 482913 (Some "farmer@example.com") seeded in
  let first :=
    @reset_password plain_werkzeug true "s3" (Some "farmer@example.com")
      (Some (pretty 482913)) (Some "harvest42") sent.2 in
  status sent.1 = 200 /\
  first.1 = reset_ok /\
  select_by_identifier (Some "farmer@example.com") (users first.2) =
    Some (mkUser "farmer" "s3$harvest42" "farmer" "farmer@example.com"
            "+919876543210") /\
  password_hash farmer = "s1$farmer123" /\
  @reset_password plain_werkzeug true "s4" (Some "farmer@example.com")
    (Some (pretty 482913)) (Some "again") first.2 = (reset_invalid, first.2).
Proof.
  assert (Hsel : select_by_identifier (Some "farmer@example.com") (users seeded)
                 = Some farmer) by reflexivity.
  split; [exact Hsel|].
  destruct (@issued_code_resets_once plain_werkzeug TwilioRaises 482913 "s3" "s4"
              "farmer@example.com" "harvest42" (Some "again") seeded farmer Hsel)
    as (Hsent & _ & Hfirst & Hrow & _ & _ & Hsecond).
  split; [exact Hsent|]. split; [exact Hfirst|]. split; [exact Hrow|].
  split; [reflexivity | exact Hsecond].
Defined.

(** A wrong code for [farmer], addressed by mobile number. *)
Lemma reset_needs_exact_otp_witness :
  select_by_identifier (Some "+919876543210") (users pending) = Some farmer /\
  (otp_store pending !! username farmer = None \/
   otp_store pending !! username farmer <> Some "654321") /\
  @reset_password plain_werkzeug true "s3" (Some "+919876543210") (Some "654321")
    (Some "harvest42") pending = (reset_invalid, pending).
Proof.
  assert (Hsel : select_by_identifier (Some "+919876543210") (users pending)
                 = Some farmer) by reflexivity.
  assert (Hbad : otp_store pending !! username farmer = None \/
                 otp_store pending !! username farmer <> Some "654321")
    by (right; vm_compute; discriminate).
  split; [exact Hsel|]. split; [exact Hbad|].
  exact (@reset_needs_exact_otp plain_werkzeug "s3" (Some "+919876543210")
           (Some "654321") (Some "harvest42") pending farmer Hsel Hbad).
Defined.

(** Two requests with different draws: the first code is refused. *)
Lemma second_otp_replaces_first_witness :
  select_by_identifier (Some "farmer") (users seeded) = Some farmer /\
  111111 <> 222222 /\
  let st1 := (send_otp true (TwilioSent "SM1") 111111 (Some "farmer") seeded).2 in
  let st2 := (send_otp true TwilioRaises 222222 (Some "farmer") st1).2 in
  otp_store st2 !! "farmer" = Some (pretty 222222) /\
  @reset_password plain_werkzeug true "s3" (Some "farmer") (Some (pretty 111111))
    (Some "harvest42") st2 = (reset_invalid, st2).
Proof.
  assert (Hsel : select_by_identifier (Some "farmer") (users seeded) = Some farmer)
    by reflexivity.
  assert (Hne : 111111 <> 222222) by lia.
  split; [exact Hsel|]. split; [exact Hne|].
  destruct (@second_otp_replaces_first plain_werkzeug (TwilioSent "SM1") TwilioRaises
              111111 222222 "s3" "farmer" (Some "harvest42") seeded farmer Hsel Hne)
    as (_ & Hstored & Hrejected).
  split; assumption.
Defined.

(** C4: the code does not keep to it. A login request that carries no
    password is answered 500 'Login failed' when the user name has a row
    ([check_password_hash] raises on the missing password) and 401 'Bad
    username or password' when it has none (the test stops at [not user]):
    the two answers tell a registered name from an unregistered one. *)
Theorem login_absent_password_tells_users_apart :
  select_by_username (Some "farmer") (users seeded) = Some farmer /\
  select_by_username (Some "ghost") (users seeded) = None /\
  @login plain_werkzeug plain_jwt true (Some "farmer") None seeded =
    mkResponse (Msg "Login failed") 500 /\
  @login plain_werkzeug plain_jwt true (Some "ghost") None seeded =
    mkResponse (Msg "Bad username or password") 401 /\
  @login plain_werkzeug plain_jwt true (Some "farmer") None seeded <>
  @login plain_werkzeug plain_jwt true (Some "ghost") None seeded.
Proof.
  assert (H1 : select_by_username (Some "farmer") (users seeded) = Some farmer)
    by reflexivity.
  assert (H2 : select_by_username (Some "ghost") (users seeded) = None)
    by reflexivity.
  destruct (@login_absent_password plain_werkzeug plain_jwt (Some "farmer")
              (Some "ghost") seeded seeded farmer H1 H2) as [Ha Hb].
  repeat (split; [assumption|]). rewrite Ha, Hb. discriminate.
Qed.

(** An unknown name and a wrong password for [farmer] get the same answer. *)
Lemma login_failures_coincide_witness :
  select_by_username (Some "ghost") (users seeded) = None /\
  select_by_username (Some "farmer") (users seeded) = Some farmer /\
  @hash_matches plain_werkzeug (password_hash farmer) "wrong" = false /\
  @login plain_werkzeug plain_jwt true (Some "ghost") (Some "farmer123") seeded =
  @login plain_werkzeug plain_jwt true (Some "farmer") (Some "wrong") seeded.
Proof.
  assert (H1 : select_by_username (Some "ghost") (users seeded) = None)
    by reflexivity.
  assert (H2 : select_by_username (Some "farmer") (users seeded) = Some farmer)
    by reflexivity.
  assert (H3 : @hash_matches plain_werkzeug (password_hash farmer) "wrong" = false)
    by reflexivity.
  repeat (split; [assumption|]).
  destruct (@login_failures_coincide plain_werkzeug plain_jwt (Some "ghost")
              (Some "farmer") (Some "farmer123") "wrong" seeded seeded farmer
              H1 H2 H3) as [Ha Hb].
  now rewrite Ha, Hb.
Defined.

(** [analyst] asks for a code while the SMS provider raises. *)
Lemma send_otp_ok_whatever_sms_witness :
  select_by_identifier (Some "analyst@example.com") (users seeded) = Some analyst /\
  let sent := send_otp true TwilioRaises 700001 (Some "analyst@example.com") seeded in
  status sent.1 = 200 /\
  otp_store sent.2 !! "analyst" = Some (pretty 700001) /\
  (@reset_password plain_werkzeug true "s3" (Some "analyst@example.com")
     (Some (pretty 700001)) (Some "harvest42") sent.2).1 = reset_ok.
Proof.
  assert (Hsel : select_by_identifier (Some "analyst@example.com") (users seeded)
                 = Some analyst) by reflexivity.
  split; [exact Hsel|].
  destruct (@send_otp_ok_whatever_sms plain_werkzeug TwilioRaises 700001 "s3"
              "analyst@example.com" "harvest42" seeded analyst Hsel)
    as (Hstatus & _ & Hcode & Hreset).
  repeat split; assumption.
Defined.

(** A wrong code, then the right one, for [farmer]. *)
Lemma failed_reset_keeps_otp_witness :
  select_by_identifier (Some "farmer") (users pending) = Some farmer /\
  otp_store pending !! username farmer = Some "123456" /\
  Some "000000" <> Some "123456" /\
  let failed :=
    @reset_password plain_werkzeug true "s3" (Some "farmer") (Some "000000")
      (Some "harvest42") pending in
  failed = (reset_invalid, pending) /\
  (@reset_password plain_werkzeug true "s4" (Some "farmer") (Some "123456")
     (Some "harvest42") failed.2).1 = reset_ok.
Proof.
  assert (Hsel : select_by_identifier (Some "farmer") (users pending) = Some farmer)
    by reflexivity.
  assert (Hcode : otp_store pending !! username farmer = Some "123456")
    by (vm_compute; reflexivity).
  assert (Hwrong : Some "000000" <> Some "123456") by discriminate.
  repeat (split; [assumption|]).
  destruct (@failed_reset_keeps_otp plain_werkzeug "s3" "s4" "harvest42" "123456"
              (Some "farmer") (Some "000000") (Some "harvest42") pending farmer
              Hsel Hcode Hwrong) as (Hfailed & _ & Hretry).
  split; assumption.
Defined.

(** Wheat with every draw at 1.15: the value 2656 is within the band around 2310. *)
Lemma heatmap_prices_within_band_witness :
  let u := fun _ : nat => (23 # 20)%Q in
  (forall i, (85 # 100 <= u i)%Q /\ (u i <= 115 # 100)%Q) /\
  ("Goa", 2656) ∈ state_prices (handle_heatmap_data (Some "wheat") 0 (1 # 10) (1 # 10) u) /\
  ((85 # 100) * inject_Z 2310 - (1 # 2) <= inject_Z 2656)%Q /\
  (inject_Z 2656 <= (115 # 100) * inject_Z 2310 + (1 # 2))%Q.
Proof.
  intros u.
  assert (Hu : forall i, (85 # 100 <= u i)%Q /\ (u i <= 115 # 100)%Q)
    by (intros i; unfold u, Qle; simpl; lia).
  assert (Hin : ("Goa", 2656) ∈
                state_prices (handle_heatmap_data (Some "wheat") 0 (1 # 10) (1 # 10) u))
    by (apply (list_elem_of_lookup_2 _ 5%nat); vm_compute; reflexivity).
  split; [exact Hu|]. split; [exact Hin|].
  exact (heatmap_prices_within_band (Some "wheat") 0 (1 # 10) (1 # 10) u "Goa" 2656
           Hu Hin).
Defined.

(** The wheat question when the trend draw is 0. *)
Lemma wheat_in_mumbai_price_detail_witness :
  ((-5 <= 0)%Q /\ (0 <= 10)%Q) /\
  handle_chat GeminiDisabled 0 (1 # 10) (1 # 10)
    (Some "what is the price of wheat in mumbai") (Some "en") =
  mkResponse
    (ChatResponse
       "The current simulated price for Wheat in Mumbai is around ₹2,310.00/quintal. The trend is positive.")
    200.
Proof.
  assert (Hdraw : (-5 <= 0)%Q /\ (0 <= 10)%Q) by (unfold Qle; simpl; lia).
  split; [exact Hdraw|].
  destruct (wheat_in_mumbai_price_detail GeminiDisabled 0 (1 # 10) (1 # 10) Hdraw)
    as (Hresponse & _ & _).
  exact Hresponse.
Defined.

(** A question no rule matches, in Kannada, while Gemini raises. *)
Lemma chat_default_when_gemini_fails_witness :
  match_rules (responses_for "kn") "kn" (py_lower "How are you") 0 (1 # 10) (1 # 10)
    = None /\
  handle_chat gemini_down 0 (1 # 10) (1 # 10) (Some "How are you") (Some "kn") =
  mkResponse
    (ChatResponse
       "ನಾನು ಬೆಲೆ ಮುನ್ಸೂಚನೆಗಳು, ಹವಾಮಾನದ ಪ್ರಭಾವ ಮತ್ತು ಬೆಳೆ ಶಿಫಾರಸುಗಳೊಂದಿಗೆ ಸಹಾಯ ಮಾಡಬಹುದು.")
    200.
Proof.
  assert (Hrules : match_rules (responses_for (default "en" (Some "kn")))
                     (default "en" (Some "kn"))
                     (py_lower (default EmptyString (Some "How are you")))
                     0 (1 # 10) (1 # 10) = None) by reflexivity.
  split; [exact Hrules|].
  apply (chat_default_when_gemini_fails gemini_down 0 (1 # 10) (1 # 10)
           (Some "How are you") (Some "kn") Hrules).
  right. eexists. split; reflexivity.
Defined.

(* ===================================================================== *)
(** * Properties of registration and seeding *)
(* ===================================================================== *)

Lemma violates_true (row : User) (t : list User) (c : Column) :
  violates row t c = true <-> In (column_value c row) (map (column_value c) t).
Proof.
  unfold violates. rewrite existsb_exists, in_map_iff.
  split; intros (u & H1 & H2).
  - apply String.eqb_eq in H2. eauto.
  - exists u. split; [assumption|]. now apply String.eqb_eq.
Qed.

Lemma violates_false (row : User) (t : list User) (c : Column) :
  violates row t c = false <-> ~ In (column_value c row) (map (column_value c) t).
Proof.
  rewrite <- violates_true. destruct (violates row t c); split; congruence.
Qed.

(** A successful insert appends the row, and no constraint was violated. *)
Lemma insert_user_inr (o : CheckOrder) (row : User) (t t' : list User) :
  insert_user o row t = inr t' <->
  t' = (t ++ [row])%list /\ forall c, violates row t c = false.
Proof.
  unfold insert_user. split.
  - destruct o; simpl;
      destruct (violates row t ColUsername) eqn:Eu;
      destruct (violates row t ColEmail) eqn:Ee;
      destruct (violates row t ColMobile) eqn:Em;
      try discriminate; intros [= <-]; (split; [reflexivity|]);
      intros []; assumption.
  - intros [-> Hall].
    destruct o; simpl; rewrite !Hall; reflexivity.
Qed.

(** A refused insert names a constraint that is violated, and one is named
    as soon as any is violated. *)
Lemma insert_user_inl (o : CheckOrder) (row : User) (t : list User) (c : Column) :
  insert_user o row t = inl c -> violates row t c = true.
Proof.
  unfold insert_user.
  destruct (find (violates row t) (columns_of o)) as [c'|] eqn:E; [|discriminate].
  intros [= <-]. now apply find_some in E.
Qed.

Lemma insert_user_refused (o : CheckOrder) (row : User) (t : list User) (c : Column) :
  violates row t c = true -> exists c', insert_user o row t = inl c'.
Proof.
  intros Hc. destruct (insert_user o row t) as [c'|t'] eqn:E; [eauto|].
  apply insert_user_inr in E as [_ Hall]. rewrite Hall in Hc. discriminate.
Qed.

Lemma NoDup_snoc {A} (l : list A) (x : A) :
  NoDup l -> ~ In x l -> NoDup (l ++ [x]).
Proof.
  induction 1 as [|y l Hy Hl IH]; intros Hx; simpl.
  - constructor; [intros H; inversion H | constructor].
  - constructor.
    + rewrite list_elem_of_In, in_app_iff. intros [Hin | [-> | []]].
      * apply Hy. now apply list_elem_of_In.
      * apply Hx. now left.
    + apply IH. intros Hin. apply Hx. now right.
Qed.

Lemma insert_user_unique (o : CheckOrder) (row : User) (t t' : list User) :
  unique_columns t -> insert_user o row t = inr t' -> unique_columns t'.
Proof.
  intros Hu Hins c. apply insert_user_inr in Hins as [-> Hall].
  rewrite map_app. simpl. apply NoDup_snoc; [apply Hu|].
  apply violates_false, Hall.
Qed.

Lemma insert_or_skip_unique (o : CheckOrder) (row : User) (t : list User) :
  unique_columns t -> unique_columns (insert_or_skip o row t).
Proof.
  intros Hu. unfold insert_or_skip.
  destruct (insert_user o row t) eqn:E; [assumption|].
  exact (insert_user_unique _ _ _ _ Hu E).
Qed.

Lemma update_password_hash_columns (c : Column) (h name : string) (t : list User) :
  map (column_value c) (update_password_hash h name t) = map (column_value c) t.
Proof.
  unfold update_password_hash. rewrite map_map. apply map_ext.
  intros u. destruct (String.eqb (username u) name); destruct c; reflexivity.
Qed.

(** What [insert_or_skip] leaves behind: the columns of the row are taken. *)
Lemma insert_or_skip_taken (o : CheckOrder) (row row' : User) (t : list User) :
  (forall c, column_value c row' = column_value c row) ->
  exists c, violates row' (insert_or_skip o row t) c = true.
Proof.
  intros Hsame. unfold insert_or_skip.
  destruct (insert_user o row t) as [c|t'] eqn:E.
  - exists c. apply insert_user_inl in E.
    apply violates_true. rewrite Hsame. now apply violates_true.
  - apply insert_user_inr in E as [-> _]. exists ColUsername.
    apply violates_true. rewrite map_app, in_app_iff. right. left.
    symmetry. apply Hsame.
Qed.

Lemma violates_app (row : User) (t1 t2 : list User) (c : Column) :
  violates row t1 c = true -> violates row (t1 ++ t2) c = true.
Proof.
  rewrite !violates_true, map_app, in_app_iff. tauto.
Qed.

Lemma insert_or_skip_keeps (o : CheckOrder) (row row' : User) (t : list User) (c : Column) :
  violates row' t c = true -> violates row' (insert_or_skip o row t) c = true.
Proof.
  intros Hv. unfold insert_or_skip.
  destruct (insert_user o row t) as [c'|t'] eqn:E; [assumption|].
  apply insert_user_inr in E as [-> _]. now apply violates_app.
Qed.

Lemma insert_or_skip_taken_id (o : CheckOrder) (row : User) (t : list User) (c : Column) :
  violates row t c = true -> insert_or_skip o row t = t.
Proof.
  intros Hv. unfold insert_or_skip.
  destruct (insert_user_refused o row t c Hv) as [c' ->]. reflexivity.
Qed.

Lemma find_app_none {A} (f : A -> bool) (l k : list A) :
  find f l = None -> find f (l ++ k) = find f k.
Proof.
  induction l as [|x l IH]; simpl; [reflexivity|].
  destruct (f x); [discriminate | exact IH].
Qed.

Lemma find_app_some {A} (f : A -> bool) (l k : list A) (x : A) :
  find f l = Some x -> find f (l ++ k) = Some x.
Proof.
  induction l as [|y l IH]; simpl; [discriminate|].
  destruct (f y); [trivial | exact IH].
Qed.

Lemma select_by_username_none (n : string) (t : list User) :
  select_by_username (Some n) t = None <-> ~ In n (map username t).
Proof.
  simpl. induction t as [|u t IH]; simpl; [tauto|].
  destruct (String.eqb_spec (username u) n); [split; [discriminate | tauto]|].
  rewrite IH. tauto.
Qed.

(** The row a lookup returns is a row of the table with the key asked for. *)
Lemma select_by_username_some (n : option string) (t : list User) (u : User) :
  select_by_username n t = Some u -> In u t /\ n = Some (username u).
Proof.
  destruct n as [n|]; [|discriminate]. simpl. intros Hf.
  apply find_some in Hf as [Hin Heq]. apply String.eqb_eq in Heq. now subst.
Qed.

Lemma select_by_identifier_some (i : option string) (t : list User) (u : User) :
  select_by_identifier i t = Some u ->
  In u t /\ exists v, i = Some v /\ In v (identifiers u).
Proof.
  destruct i as [i|]; [|discriminate]. simpl. intros Hf.
  apply find_some in Hf as [Hin Hm]. split; [assumption|]. exists i.
  split; [reflexivity|]. unfold matches_identifier in Hm. unfold identifiers.
  apply orb_true_iff in Hm as [Hm | Hm]; [apply orb_true_iff in Hm as [Hm | Hm]|];
    apply String.eqb_eq in Hm; simpl; tauto.
Qed.

(** The UPDATE and the lookup by user name. *)
Lemma select_by_username_update (n : option string) (h name : string) (t : list User) :
  select_by_username n (update_password_hash h name t) =
  (fun u => if String.eqb (username u) name then set_password_hash h u else u)
    <$> select_by_username n t.
Proof.
  destruct n as [n|]; [|reflexivity].
  simpl. induction t as [|row t IH]; [reflexivity|].
  simpl. destruct (String.eqb (username row) name) eqn:E; simpl;
    destruct (String.eqb (username row) n); simpl; rewrite ?E; auto.
Qed.

Lemma unique_columns_eq (t : list User) (c : Column) (u v : User) :
  unique_columns t -> In u t -> In v t ->
  column_value c u = column_value c v -> u = v.
Proof.
  intros Hu. specialize (Hu c). induction t as [|x t IH]; simpl; [tauto|].
  simpl in Hu. apply NoDup_cons in Hu as [Hx Hu].
  rewrite list_elem_of_In in Hx.
  intros [-> | Hin1] [-> | Hin2] Heq; auto.
  - exfalso. apply Hx. rewrite Heq. now apply in_map.
  - exfalso. apply Hx. rewrite <- Heq. now apply in_map.
Qed.

Section Accounts.
Context `{Werkzeug} `{JwtExtended}.

(** The two ways [send_otp] can end. *)
Lemma send_otp_cases conn tw draw identifier st :
  (status (send_otp conn tw draw identifier st).1 <> 200 /\
   (send_otp conn tw draw identifier st).2 = st) \/
  (exists u,
     conn = true /\
     select_by_identifier identifier (users st) = Some u /\
     status (send_otp conn tw draw identifier st).1 = 200 /\
     (send_otp conn tw draw identifier st).2 =
       mkState (users st) (<[username u := pretty draw]> (otp_store st))).
Proof.
  unfold send_otp. destruct conn; simpl; [|left; split; [lia | reflexivity]].
  destruct (select_by_identifier identifier (users st)) as [u|] eqn:E;
    [|left; split; [simpl; lia | reflexivity]].
  right. exists u. destruct tw; simpl; repeat split; reflexivity.
Qed.

(** The two ways [reset_password] can end. *)
Lemma reset_password_cases conn salt identifier otp new_password st :
  (status (reset_password conn salt identifier otp new_password st).1 <> 200 /\
   (reset_password conn salt identifier otp new_password st).2 = st) \/
  (exists u code pw,
     conn = true /\
     select_by_identifier identifier (users st) = Some u /\
     otp_store st !! username u = Some code /\
     otp = Some code /\ new_password = Some pw /\
     reset_password conn salt identifier otp new_password st =
       (reset_ok,
        mkState (update_password_hash (hash_internal salt pw) (username u) (users st))
                (delete (username u) (otp_store st)))).
Proof.
  unfold reset_password. destruct conn; simpl; [|left; split; [lia | reflexivity]].
  destruct (select_by_identifier identifier (users st)) as [u|] eqn:E;
    [|left; split; [simpl; lia | reflexivity]].
  destruct (otp_store st !! username u) as [code|] eqn:Ecode.
  - rewrite bool_decide_eq_true_2 by eauto. simpl. unfold otp_differs.
    case_bool_decide as Hotp; simpl; [|left; split; [lia | reflexivity]].
    destruct new_password as [pw|]; simpl; [|left; split; [lia | reflexivity]].
    right. exists u, code, pw. repeat split; congruence.
  - rewrite bool_decide_eq_false_2 by (intros [? ?]; discriminate). simpl.
    left. split; [lia | reflexivity].
Qed.

(** The ways [register] can end. *)
Lemma register_cases conn o salt name password mail phone st :
  let row := new_user_row salt name password mail phone in
  let r := register conn o salt name password mail phone st in
  (status r.1 = 201 /\ conn = true /\
   fields_present name password mail phone = true /\
   mobile_format_ok phone = true /\
   (forall c, violates row (users st) c = false) /\
   r.2 = mkState (users st ++ [row]) (otp_store st)) \/
  (status r.1 <> 201 /\ r.2 = st).
Proof.
  intros row r. subst r. unfold register.
  destruct (fields_present name password mail phone); simpl;
    [|right; split; [lia | reflexivity]].
  destruct (mobile_format_ok phone); simpl; [|right; split; [lia | reflexivity]].
  destruct conn; simpl; [|right; split; [lia | reflexivity]].
  fold row. destruct (insert_user o row (users st)) as [c|t] eqn:E; simpl.
  - right. split; [lia | reflexivity].
  - left. apply insert_user_inr in E as [-> Hall]. repeat split; auto.
Qed.


(** X2: [register] changes the state only when it answers 201, and then all
    it does is append the new row, with role "farmer", to a table in which no
    row had its user name, e-mail address or mobile number. *)
Theorem register_creates_or_leaves
    (conn : bool) (o : CheckOrder) (salt : string)
    (name password mail phone : option string) (st : State) :
  let row := new_user_row salt name password mail phone in
  let r := register conn o salt name password mail phone st in
  (status r.1 = 201 /\
   r.2 = mkState (users st ++ [row]) (otp_store st) /\
   role row = "farmer" /\
   forall c, ~ In (column_value c row) (map (column_value c) (users st))) \/
  (status r.1 <> 201 /\ r.2 = st).
Proof.
  intros row r.
  destruct (register_cases conn o salt name password mail phone st)
    as [(H1 & _ & _ & _ & Hall & H2) | H1]; [left | right; exact H1].
  repeat split; try assumption. intros c. apply violates_false, Hall.
Qed.

(** X3: for a well-formed request and a reachable database, when some row
    already has the user name, the e-mail address or the mobile number,
    [register] answers 409, the message names a column that is really
    taken, and the state is unchanged. *)
Theorem register_conflict
    (o : CheckOrder) (salt : string)
    (name password mail phone : option string) (st : State) (c : Column) :
  fields_present name password mail phone = true ->
  mobile_format_ok phone = true ->
  violates (new_user_row salt name password mail phone) (users st) c = true ->
  exists c',
    violates (new_user_row salt name password mail phone) (users st) c' = true /\
    register true o salt name password mail phone st =
      (mkResponse (Msg (conflict_message c')) 409, st).
Proof.
  intros Hf Hm Hc. unfold register. rewrite Hf, Hm. simpl.
  destruct (insert_user_refused o _ _ _ Hc) as [c' Hins].
  exists c'. split; [exact (insert_user_inl _ _ _ _ Hins)|].
  now rewrite Hins.
Qed.

(** X4: [login] answers 200 exactly when the user name has a row and the
    password matches its stored hash; the token then carries the user name
    and the role of that row. *)
Theorem login_succeeds_iff
    (name password : option string) (st : State) :
  status (login true name password st) = 200 <->
  exists u p,
    select_by_username name (users st) = Some u /\
    password = Some p /\
    hash_matches (password_hash u) p = true /\
    login true name password st =
      mkResponse (AccessToken (create_access_token (username u) (role u))) 200.
Proof.
  unfold login. simpl.
  destruct (select_by_username name (users st)) as [u|] eqn:E.
  - destruct (select_by_username_some _ _ _ E) as [_ ->].
    destruct password as [p|]; simpl.
    + destruct (hash_matches (password_hash u) p) eqn:Hm; simpl.
      * split; [intros _; exists u, p; auto | auto].
      * split; [lia|]. intros (u' & p' & [= <-] & [= <-] & Hm' & _). congruence.
    + split; [lia|]. intros (? & ? & _ & ? & _). discriminate.
  - simpl. split; [lia|]. intros (? & ? & ? & _). discriminate.
Qed.

(** X5: when [register] answers 201 and the hash of a password matches that
    password, a login with the same user name and password answers 200 with
    a token for that name and the role "farmer". *)
Theorem register_then_login
    (o : CheckOrder) (salt n p : string) (mail phone : option string) (st : State) :
  status (register true o salt (Some n) (Some p) mail phone st).1 = 201 ->
  hash_matches (hash_internal salt p) p = true ->
  login true (Some n) (Some p)
    (register true o salt (Some n) (Some p) mail phone st).2 =
  mkResponse (AccessToken (create_access_token n "farmer")) 200.
Proof.
  intros H201 Hm.
  destruct (register_cases true o salt (Some n) (Some p) mail phone st)
    as [(_ & _ & _ & _ & Hall & ->) | [Hne _]]; [|contradiction].
  unfold login. simpl.
  assert (Hnone : find (fun u => String.eqb (username u) n) (users st) = None).
  { apply (select_by_username_none n).
    exact (proj1 (violates_false _ _ ColUsername) (Hall ColUsername)). }
  rewrite (find_app_none _ _ _ Hnone). simpl.
  rewrite String.eqb_refl. simpl. rewrite Hm. reflexivity.
Qed.

End Accounts.

Section Recovery.
Context `{Werkzeug}.

(** X6: after a [reset_password] that answers 200, a login with the user
    name of the resolved row and the new password answers 200, as soon as
    the hash of a password matches that password and user names are unique
    in the table. *)
Theorem reset_then_login `{JwtExtended}
    (salt : string) (identifier otp : option string) (pw : string)
    (st : State) (u : User) :
  unique_columns (users st) ->
  select_by_identifier identifier (users st) = Some u ->
  status (reset_password true salt identifier otp (Some pw) st).1 = 200 ->
  hash_matches (hash_internal salt pw) pw = true ->
  login true (Some (username u)) (Some pw)
    (reset_password true salt identifier otp (Some pw) st).2 =
  mkResponse (AccessToken (create_access_token (username u) (role u))) 200.
Proof.
  intros Huniq Hsel H200 Hm.
  destruct (reset_password_cases true salt identifier otp (Some pw) st)
    as [[Hne _] | (u' & code & pw' & _ & Hsel' & _ & _ & [= <-] & ->)];
    [contradiction|].
  assert (u' = u) as -> by congruence.
  unfold login. cbn [negb snd users].
  rewrite select_by_username_update.
  destruct (select_by_identifier_some _ _ _ Hsel) as [Hin _].
  destruct (select_by_username (Some (username u)) (users st)) as [v|] eqn:Ev.
  - destruct (select_by_username_some _ _ _ Ev) as [Hv [= Hname]].
    assert (v = u) as ->
      by (apply (unique_columns_eq (users st) ColUsername); auto).
    simpl. rewrite String.eqb_refl. simpl. rewrite Hm. reflexivity.
  - exfalso. apply select_by_username_none in Ev. apply Ev. now apply in_map.
Qed.

(** X7: a request for one user touches nobody else: after [send_otp] or
    [reset_password] for an identifier that resolves to a row, whatever the
    outcome, the pending code and the row of every other user name are what
    they were. *)
Theorem other_users_untouched
    (conn : bool) (tw : Twilio) (draw : Z) (salt : string)
    (identifier otp new_password : option string) (st : State) (u : User)
    (n : string) :
  select_by_identifier identifier (users st) = Some u ->
  n <> username u ->
  let sent := (send_otp conn tw draw identifier st).2 in
  let reset := (reset_password conn salt identifier otp new_password st).2 in
  otp_store sent !! n = otp_store st !! n /\
  users sent = users st /\
  otp_store reset !! n = otp_store st !! n /\
  select_by_username (Some n) (users reset) = select_by_username (Some n) (users st).
Proof.
  intros Hsel Hn sent reset.
  assert (Hsent : otp_store sent !! n = otp_store st !! n /\ users sent = users st).
  { subst sent.
    destruct (send_otp_cases conn tw draw identifier st)
      as [[_ ->] | (u' & _ & Hsel' & _ & ->)]; [auto|].
    assert (u' = u) as -> by congruence.
    simpl. split; [|reflexivity]. apply lookup_insert_ne. congruence. }
  destruct Hsent as [H1 H2]. repeat split; try assumption; subst reset.
  - destruct (reset_password_cases conn salt identifier otp new_password st)
      as [[_ ->] | (u' & code & pw & _ & Hsel' & _ & _ & _ & ->)]; [reflexivity|].
    assert (u' = u) as -> by congruence.
    simpl. apply lookup_delete_ne. congruence.
  - destruct (reset_password_cases conn salt identifier otp new_password st)
      as [[_ ->] | (u' & code & pw & _ & Hsel' & _ & _ & _ & ->)]; [reflexivity|].
    assert (u' = u) as -> by congruence.
    cbn [snd users]. rewrite select_by_username_update.
    destruct (select_by_username (Some n) (users st)) as [v|] eqn:Ev; [|reflexivity].
    destruct (select_by_username_some _ _ _ Ev) as [_ [= Hv]].
    simpl. destruct (String.eqb_spec (username v) (username u)); [congruence|reflexivity].
Qed.

(** X8: a [send_otp] or [reset_password] that does not answer 200 leaves the
    table and the OTP store exactly as they were. *)
Theorem failed_requests_change_nothing
    (conn : bool) (tw : Twilio) (draw : Z) (salt : string)
    (identifier otp new_password : option string) (st : State) :
  (status (send_otp conn tw draw identifier st).1 <> 200 ->
   (send_otp conn tw draw identifier st).2 = st) /\
  (status (reset_password conn salt identifier otp new_password st).1 <> 200 ->
   (reset_password conn salt identifier otp new_password st).2 = st).
Proof.
  split; intros Hne.
  - destruct (send_otp_cases conn tw draw identifier st)
      as [[_ ?] | (u & _ & _ & H200 & _)]; [assumption | contradiction].
  - destruct (reset_password_cases conn salt identifier otp new_password st)
      as [[_ ?] | (u & code & pw & _ & _ & _ & _ & _ & Heq)]; [assumption|].
    rewrite Heq in Hne. simpl in Hne. lia.
Qed.

(** X9: uniqueness of user names, e-mail addresses and mobile numbers is
    kept by every handler that writes: [register], [send_otp],
    [reset_password] and [init_db]. *)
Theorem unique_columns_preserved
    (conn : bool) (o : CheckOrder) (tw : Twilio) (draw : Z) (salt salt' : string)
    (name password mail phone identifier otp new_password : option string)
    (st : State) :
  unique_columns (users st) ->
  unique_columns (users (register conn o salt name password mail phone st).2) /\
  unique_columns (users (send_otp conn tw draw identifier st).2) /\
  unique_columns (users (reset_password conn salt identifier otp new_password st).2) /\
  unique_columns (users (init_db conn o salt salt' st)).
Proof.
  intros Hu. repeat split.
  - destruct (register_cases conn o salt name password mail phone st)
      as [(_ & _ & _ & _ & Hall & ->) | [_ ->]]; [|assumption].
    intros c. cbn [users]. rewrite map_app. simpl.
    apply NoDup_snoc; [apply Hu | apply violates_false, Hall].
  - destruct (send_otp_cases conn tw draw identifier st)
      as [[_ ->] | (u & _ & _ & _ & ->)]; assumption.
  - destruct (reset_password_cases conn salt identifier otp new_password st)
      as [[_ ->] | (u & code & pw & _ & _ & _ & _ & _ & ->)]; [assumption|].
    intros c. cbn [snd users]. rewrite update_password_hash_columns. apply Hu.
  - unfold init_db. destruct conn; simpl; [|assumption].
    now do 2 apply insert_or_skip_unique.
Qed.

Lemma insert_or_skip_usernames (o : CheckOrder) (row : User) (t : list User) (k : string) :
  k ∈ map username t -> k ∈ map username (insert_or_skip o row t).
Proof.
  unfold insert_or_skip. destruct (insert_user o row t) as [c|t'] eqn:E; [trivial|].
  apply insert_user_inr in E as [-> _].
  rewrite !list_elem_of_In, map_app, in_app_iff. tauto.
Qed.

(** X10: every pending code belongs to a user of the table, and every
    handler that writes keeps it so: [send_otp] stores a code only under the
    user name of a row, and no handler removes a row. *)
Theorem otp_keys_registered_preserved
    (conn : bool) (o : CheckOrder) (tw : Twilio) (draw : Z) (salt salt' : string)
    (name password mail phone identifier otp new_password : option string)
    (st : State) :
  otp_keys_registered st ->
  otp_keys_registered (register conn o salt name password mail phone st).2 /\
  otp_keys_registered (send_otp conn tw draw identifier st).2 /\
  otp_keys_registered (reset_password conn salt identifier otp new_password st).2 /\
  otp_keys_registered (init_db conn o salt salt' st).
Proof.
  intros Hk. repeat split.
  - destruct (register_cases conn o salt name password mail phone st)
      as [(_ & _ & _ & _ & _ & ->) | [_ ->]]; [|assumption].
    intros k Hsome. specialize (Hk k Hsome). cbn [users].
    rewrite list_elem_of_In in *. rewrite map_app, in_app_iff. tauto.
  - destruct (send_otp_cases conn tw draw identifier st)
      as [[_ ->] | (u & _ & Hsel & _ & ->)]; [assumption|].
    intros k. cbn [users otp_store].
    destruct (decide (k = username u)) as [-> | Hne].
    + intros _. apply list_elem_of_In, in_map.
      now destruct (select_by_identifier_some _ _ _ Hsel).
    + rewrite lookup_insert_ne by congruence. apply Hk.
  - destruct (reset_password_cases conn salt identifier otp new_password st)
      as [[_ ->] | (u & code & pw & _ & _ & _ & _ & _ & ->)]; [assumption|].
    intros k. cbn [snd users otp_store].
    change (map username) with (map (column_value ColUsername)).
    rewrite update_password_hash_columns.
    destruct (decide (k = username u)) as [-> | Hne].
    + rewrite lookup_delete_eq. intros [? ?]. discriminate.
    + rewrite lookup_delete_ne by congruence. apply Hk.
  - unfold init_db. destruct conn; simpl; [|assumption].
    intros k Hsome. cbn [users otp_store] in *.
    do 2 apply insert_or_skip_usernames. now apply Hk.
Qed.

(** X11: [init_db] can be run again at no cost: on the state a first run
    left, a second run, with whatever salts and outcome of [get_db_conn],
    changes nothing. *)
Theorem init_db_idempotent
    (conn' : bool) (o o' : CheckOrder) (s1 s2 s1' s2' : string) (st : State) :
  init_db conn' o' s1' s2' (init_db true o s1 s2 st) = init_db true o s1 s2 st.
Proof.
  unfold init_db at 1. destruct conn'; simpl; [|reflexivity].
  unfold init_db. simpl.
  set (t1 := insert_or_skip o (seed_farmer s1) (users st)).
  set (t2 := insert_or_skip o (seed_analyst s2) t1).
  destruct (insert_or_skip_taken o (seed_farmer s1) (seed_farmer s1') (users st))
    as [c Hc]; [intros []; reflexivity|].
  fold t1 in Hc.
  apply (insert_or_skip_keeps o (seed_analyst s2)) in Hc. fold t2 in Hc.
  rewrite (insert_or_skip_taken_id o' _ _ _ Hc).
  destruct (insert_or_skip_taken o (seed_analyst s2) (seed_analyst s2') t1)
    as [c' Hc']; [intros []; reflexivity|].
  fold t2 in Hc'.
  rewrite (insert_or_skip_taken_id o' _ _ _ Hc'). reflexivity.
Qed.

Lemma matches_identifier_In (i : string) (u : User) :
  matches_identifier i u = true <-> In i (identifiers u).
Proof.
  unfold matches_identifier, identifiers. simpl.
  rewrite !orb_true_iff, !String.eqb_eq. tauto.
Qed.

(** X12: in a table where no value addresses two rows, each of the user
    name, the e-mail address and the mobile number of a row resolves to that
    row, so the three can be used one for another in [send_otp] and
    [reset_password]. *)
Theorem identifiers_interchangeable (t : list User) (u : User) (i : string) :
  distinct_identifiers t = true ->
  In u t ->
  In i (identifiers u) ->
  select_by_identifier (Some i) t = Some u.
Proof.
  simpl. induction t as [|x t IH]; intros Hd Hin Hi; [destruct Hin|].
  cbn [distinct_identifiers] in Hd. apply andb_true_iff in Hd as [Hx Hd].
  cbn [find]. destruct Hin as [-> | Hin].
  - now rewrite (proj2 (matches_identifier_In i u) Hi).
  - destruct (matches_identifier i x) eqn:Em; [|now apply IH].
    exfalso. apply matches_identifier_In in Em.
    rewrite forallb_forall in Hx. specialize (Hx u Hin).
    rewrite forallb_forall in Hx. specialize (Hx i Em).
    rewrite (proj2 (matches_identifier_In i u) Hi) in Hx. discriminate.
Qed.

End Recovery.

(* ===================================================================== *)
(** * Properties of substring search and of the keyword tables *)
(* ===================================================================== *)

Lemma append_cons (c : ascii) (a b : string) :
  String c a +:+ b = String c (a +:+ b).
Proof. reflexivity. Qed.

Lemma append_nil (b : string) : EmptyString +:+ b = b.
Proof. reflexivity. Qed.

Lemma prefix_decompose (k s : string) :
  String.prefix k s = true <-> exists post, s = k +:+ post.
Proof.
  revert s. induction k as [|c k IH]; intros s.
  - destruct s; simpl; split; eauto.
  - destruct s as [|d s]; simpl.
    + split; [discriminate | intros [? ?]; discriminate].
    + destruct (ascii_dec c d) as [-> | Hne].
      * rewrite IH. split; intros [post Hp]; exists post;
          rewrite append_cons in *; congruence.
      * split; [discriminate|].
        intros [post Hp]. rewrite append_cons in Hp. congruence.
Qed.

(** X13: [py_in k s], the model of Python's [k in s], holds exactly when
    [s] is some text, then [k], then some text. *)
Theorem py_in_decompose (k s : string) :
  py_in k s = true <-> exists pre post, s = pre +:+ k +:+ post.
Proof.
  induction s as [|c s IH].
  - cbn [py_in]. rewrite orb_false_r, prefix_decompose. split.
    + intros [post Hp]. exists EmptyString, post. exact Hp.
    + intros (pre & post & Hp). destruct pre; [|discriminate]. eauto.
  - cbn [py_in]. rewrite orb_true_iff, prefix_decompose, IH. split.
    + intros [[post Hp] | (pre & post & Hp)].
      * exists EmptyString, post. exact Hp.
      * exists (String c pre), post. rewrite append_cons. now rewrite Hp.
    + intros (pre & post & Hp). destruct pre as [|d pre].
      * left. exists post. exact Hp.
      * right. exists pre, post. rewrite append_cons in Hp. congruence.
Qed.

Lemma append_assoc (a b c : string) : (a +:+ b) +:+ c = a +:+ (b +:+ c).
Proof.
  induction a as [|x a IH]; [reflexivity|].
  rewrite !append_cons. now rewrite IH.
Qed.

(** Containment is transitive. *)
Lemma py_in_trans (a b c : string) :
  py_in a b = true -> py_in b c = true -> py_in a c = true.
Proof.
  rewrite !py_in_decompose.
  intros (p1 & q1 & ->) (p2 & q2 & ->).
  exists (p2 +:+ p1), (q1 +:+ q2). now rewrite !append_assoc.
Qed.

(** A query with a greeting keyword gets the greeting of its language. *)
Lemma handle_chat_greeting (gemini : Gemini) (r_trend r_low r_high : Q)
    (query lang : option string) :
  any_in greeting_keywords (py_lower (default EmptyString query)) = true ->
  handle_chat gemini r_trend r_low r_high query lang =
  mkResponse
    (ChatResponse (subscript (responses_for (default "en" lang)) "greeting")) 200.
Proof.
  intros Hg. unfold handle_chat, match_rules. cbv zeta. now rewrite Hg.
Qed.

(** X14: the greeting rule comes first and looks for "hi" anywhere in the
    text, so a query naming Delhi, Shivamogga, Ludhiana, Nashik or Kochi
    (the market keywords that contain "hi") gets the greeting, whatever
    else it asks. *)
Theorem market_names_with_hi_get_greeting
    (gemini : Gemini) (r_trend r_low r_high : Q) (query lang : option string)
    (m : string) :
  In m ["delhi"; "shivamogga"; "ludhiana"; "nashik"; "kochi"] ->
  py_in m (py_lower (default EmptyString query)) = true ->
  In m MARKET_KEYWORDS /\
  handle_chat gemini r_trend r_low r_high query lang =
  mkResponse
    (ChatResponse (subscript (responses_for (default "en" lang)) "greeting")) 200.
Proof.
  intros Hm Hin.
  assert (Hhi : py_in "hi" m = true /\ In m MARKET_KEYWORDS).
  { simpl in Hm. unfold MARKET_KEYWORDS.
    destruct Hm as [<- | [<- | [<- | [<- | [<- | []]]]]];
      (split; [reflexivity | simpl; tauto]). }
  destruct Hhi as [Hhi Hmk]. split; [exact Hmk|].
  apply handle_chat_greeting.
  unfold any_in, greeting_keywords. cbn [existsb].
  rewrite (py_in_trans _ _ _ Hhi Hin). now rewrite orb_true_r.
Qed.

(** The word "price" contains "rice", so a commodity is always found. *)
Lemma find_commodity_price (q : string) :
  py_in "price" q = true ->
  find_commodity q = Some "wheat" \/ find_commodity q = Some "rice".
Proof.
  intros Hp.
  assert (Hrice : py_in "rice" q = true) by (now apply (py_in_trans _ "price")).
  unfold find_commodity, commodity_keywords. cbn [find snd].
  destruct (any_in ["wheat"; "गेहूं"; "ಗೋಧಿ"] q); [left; reflexivity|].
  right. unfold any_in at 1. cbn [existsb]. rewrite Hrice. reflexivity.
Qed.

(** X15: a query that contains the word "price" and no greeting keyword is
    answered as a question about wheat or rice: "price" contains "rice", so
    the commodity rule fires and the reply is the price-detail sentence, not
    the general text about prices. *)
Theorem price_word_reads_as_commodity
    (gemini : Gemini) (r_trend r_low r_high : Q) (query lang : option string) :
  let user_query := py_lower (default EmptyString query) in
  let tag := default "en" lang in
  any_in greeting_keywords user_query = false ->
  py_in "price" user_query = true ->
  exists c,
    (c = "wheat" \/ c = "rice") /\
    find_commodity user_query = Some c /\
    handle_chat gemini r_trend r_low r_high query lang =
    mkResponse
      (ChatResponse
         (py_format (subscript (responses_for tag) "price_detail")
            [("commodity", display_commodity tag c);
             ("market", find_market user_query);
             ("price",
              format_comma_2f
                (average_price
                   (get_price_prediction c (find_market user_query) 7
                      r_trend r_low r_high)))]))
      200.
Proof.
  intros user_query tag Hg Hp.
  assert (Hc : exists c, (c = "wheat" \/ c = "rice") /\ find_commodity user_query = Some c).
  { destruct (find_commodity_price user_query Hp) as [Hc | Hc]; eauto. }
  destruct Hc as (c & Hc & Hfind). exists c. split; [exact Hc|]. split; [exact Hfind|].
  unfold handle_chat, match_rules. cbv zeta. fold user_query. fold tag.
  rewrite Hg, Hfind. reflexivity.
Qed.

Lemma unknown_tag (lang : string) :
  dict_get lang chat_responses = None ->
  responses_for lang = responses_for "en" /\ lang_commodity_index lang = None.
Proof.
  intros Hd. split; [unfold responses_for; now rewrite Hd|].
  unfold chat_responses in Hd. cbn [dict_get] in Hd.
  unfold lang_commodity_index. rewrite (String.eqb_sym lang "kn"), (String.eqb_sym lang "hi").
  destruct (String.eqb "en" lang); [discriminate|].
  destruct (String.eqb "hi" lang); [discriminate|].
  destruct (String.eqb "kn" lang); [discriminate|]. reflexivity.
Qed.

(** X16: a language tag that is none of "en", "hi" and "kn" is served in
    English: the rules give what they give for "en", and so does the whole
    handler when Gemini is disabled or a rule matched. *)
Theorem unknown_language_served_in_english
    (gemini : Gemini) (r_trend r_low r_high : Q) (query : option string)
    (lang : string) :
  dict_get lang chat_responses = None ->
  let user_query := py_lower (default EmptyString query) in
  match_rules (responses_for lang) lang user_query r_trend r_low r_high =
    match_rules (responses_for "en") "en" user_query r_trend r_low r_high /\
  handle_chat GeminiDisabled r_trend r_low r_high query (Some lang) =
    handle_chat GeminiDisabled r_trend r_low r_high query (Some "en") /\
  (match_rules (responses_for "en") "en" user_query r_trend r_low r_high <> None ->
   handle_chat gemini r_trend r_low r_high query (Some lang) =
     handle_chat gemini r_trend r_low r_high query (Some "en")).
Proof.
  intros Hd user_query. destruct (unknown_tag lang Hd) as [Hr Hi].
  assert (Hrules : match_rules (responses_for lang) lang user_query r_trend r_low r_high =
                   match_rules (responses_for "en") "en" user_query r_trend r_low r_high).
  { rewrite Hr. unfold match_rules, display_commodity. rewrite Hi. reflexivity. }
  split; [exact Hrules|].
  unfold handle_chat.
  change (default "en" (Some lang)) with lang.
  change (default "en" (Some "en")) with "en".
  cbv zeta. fold user_query. rewrite Hrules, Hr.
  split; [reflexivity|].
  intros Hsome.
  destruct (match_rules (responses_for "en") "en" user_query r_trend r_low r_high);
    [reflexivity | contradiction].
Qed.

(* ===================================================================== *)
(** * Properties of the price report and of the comparison chart *)
(* ===================================================================== *)

Lemma py_round_mono (x y : Q) : (x <= y)%Q -> py_round x <= py_round y.
Proof.
  intros Hxy.
  destruct (Z_le_gt_dec (py_round x) (py_round y)) as [Hle | Hgt]; [exact Hle|].
  exfalso.
  destruct (py_round_near x) as [_ Hx]. destruct (py_round_near y) as [Hy _].
  assert (Hstep : (inject_Z (py_round y) + 1 <= inject_Z (py_round x))%Q).
  { change 1%Q with (inject_Z 1). rewrite <- inject_Z_plus, <- Zle_Qle. lia. }
  assert (Heq : (x == y)%Q) by (apply Qle_antisym; lra).
  rewrite (py_round_comp _ _ Heq) in Hgt. lia.
Qed.

Lemma py_round_inject (z : Z) : py_round (inject_Z z) = z.
Proof.
  unfold py_round. rewrite Qfloor_Z.
  destruct (Qcompare_spec (inject_Z z - inject_Z z) (1 # 2)); [lra | reflexivity | lra].
Qed.

(** The factor the market contributes. *)
Lemma market_factor (market : string) :
  let f := if existsb (String.eqb (py_lower market)) ["mumbai"; "delhi"]
           then (105 # 100)%Q else (101 # 100)%Q in
  (1 <= f)%Q /\ (f <= 105 # 100)%Q.
Proof.
  destruct (existsb _ _); simpl; split; unfold Qle; simpl; lia.
Qed.

(** X17: for a horizon of 0 to 240 days and draws in the ranges the code
    asks of [random.uniform], the report of [get_price_prediction] is
    ordered and not negative: 0 <= low <= average <= high; the low price is
    5% to 15% under the average and the high price 5% to 15% over it, up to
    the half unit of rounding. *)
Theorem price_report_ordered
    (commodity market : string) (days_ahead : Z) (r_trend r_low r_high : Q) :
  0 <= days_ahead <= 240 ->
  (-5 <= r_trend)%Q /\ (r_trend <= 10)%Q ->
  (5 # 100 <= r_low)%Q /\ (r_low <= 15 # 100)%Q ->
  (5 # 100 <= r_high)%Q /\ (r_high <= 15 # 100)%Q ->
  let r := get_price_prediction commodity market days_ahead r_trend r_low r_high in
  0 <= low_price r /\ low_price r <= average_price r /\
  average_price r <= high_price r /\
  ((85 # 100) * inject_Z (average_price r) - (1 # 2) <= inject_Z (low_price r))%Q /\
  (inject_Z (low_price r) <= (95 # 100) * inject_Z (average_price r) + (1 # 2))%Q /\
  ((105 # 100) * inject_Z (average_price r) - (1 # 2) <= inject_Z (high_price r))%Q /\
  (inject_Z (high_price r) <= (115 # 100) * inject_Z (average_price r) + (1 # 2))%Q.
Proof.
  intros Hd [Ht1 Ht2] [Hl1 Hl2] [Hh1 Hh2] r. subst r.
  unfold get_price_prediction. cbn [average_price low_price high_price].
  pose proof (base_price_range (py_lower commodity)) as [Hb _].
  set (b := default 2500 (dict_get (py_lower commodity) base_prices)) in *.
  destruct (market_factor market) as [Hf1 Hf2].
  set (f := if existsb _ _ then _ else _) in *. clearbody f b.
  set (a := py_round ((inject_Z b + inject_Z days_ahead * r_trend) * f)).
  assert (Hb' : (1200 <= inject_Z b)%Q).
  { change 1200%Q with (inject_Z 1200). now rewrite <- Zle_Qle. }
  assert (Hd0 : (0 <= inject_Z days_ahead)%Q).
  { change 0%Q with (inject_Z 0). rewrite <- Zle_Qle. lia. }
  assert (Hd1 : (inject_Z days_ahead <= 240)%Q).
  { change 240%Q with (inject_Z 240). rewrite <- Zle_Qle. lia. }
  assert (Hdr : (-5 * inject_Z days_ahead <= r_trend * inject_Z days_ahead)%Q)
    by (apply Qmult_le_compat_r; assumption).
  assert (Hsum : (0 <= inject_Z b + inject_Z days_ahead * r_trend)%Q) by lra.
  assert (Hprod : (0 <= (inject_Z b + inject_Z days_ahead * r_trend) * f)%Q)
    by (apply Qmult_le_0_compat; lra).
  assert (Ha : 0 <= a).
  { rewrite <- (py_round_inject 0). apply py_round_mono.
    change (inject_Z 0) with 0%Q. exact Hprod. }
  assert (Ha' : (0 <= inject_Z a)%Q).
  { change 0%Q with (inject_Z 0). now rewrite <- Zle_Qle. }
  clearbody a.
  assert (Hal1 : ((5 # 100) * inject_Z a <= r_low * inject_Z a)%Q)
    by (apply Qmult_le_compat_r; assumption).
  assert (Hal2 : (r_low * inject_Z a <= (15 # 100) * inject_Z a)%Q)
    by (apply Qmult_le_compat_r; assumption).
  assert (Hah1 : ((5 # 100) * inject_Z a <= r_high * inject_Z a)%Q)
    by (apply Qmult_le_compat_r; assumption).
  assert (Hah2 : (r_high * inject_Z a <= (15 # 100) * inject_Z a)%Q)
    by (apply Qmult_le_compat_r; assumption).
  destruct (py_round_near (inject_Z a * (1 - r_low))) as [Hn1 Hn2].
  destruct (py_round_near (inject_Z a * (1 + r_high))) as [Hn3 Hn4].
  repeat split; try lra.
  - rewrite <- (py_round_inject 0). apply py_round_mono.
    change (inject_Z 0) with 0%Q. lra.
  - rewrite <- (py_round_inject a) at 2. apply py_round_mono. lra.
  - rewrite <- (py_round_inject a) at 1. apply py_round_mono. lra.
Qed.

(** Beyond that horizon the order can break: 1000 days ahead with the
    lowest trend the average is negative and the low price is above it. *)
Example price_report_far_horizon :
  get_price_prediction "wheat" "Pune" 1000 (-5) (1 # 10) (1 # 10) =
  mkPriceReport (-2828) (-2545) (-3111).
Proof. reflexivity. Qed.

Lemma davanagere_today_average (commodity : string) (r_trend r_low r_high : Q) :
  average_price (get_price_prediction commodity "Davanagere" 0 r_trend r_low r_high) =
  py_round (inject_Z (default 2500%Z (dict_get (py_lower commodity) base_prices))
            * (101 # 100))%Q.
Proof.
  unfold get_price_prediction. cbn [average_price].
  apply py_round_comp.
  change (existsb (String.eqb (py_lower "Davanagere")) ["mumbai"; "delhi"]) with false.
  cbv iota. change (inject_Z 0) with 0%Q. ring.
Qed.

(** X18: the comparison chart has one price for each of its six labels, and
    each price is the rounding of [b * u] for a draw [u] between 0.9 and 1.1,
    where [b] is 101% of the table price of the commodity, rounded; so it
    lies within 10% of [b] up to the half unit of rounding. *)
Theorem market_comparison_within_band
    (commodity : option string) (r_trend r_low r_high : Q) (u : nat -> Q) :
  (forall i, (9 # 10 <= u i)%Q /\ (u i <= 11 # 10)%Q) ->
  let c := handle_market_comparison commodity r_trend r_low r_high u in
  let table_price :=
    default 2500 (dict_get (py_lower (default "unknown" commodity)) base_prices) in
  let b := py_round (inject_Z table_price * (101 # 100))%Q in
  labels c = comparison_labels /\
  length (market_prices c) = length (labels c) /\
  forall v, In v (market_prices c) ->
    ((9 # 10) * inject_Z b - (1 # 2) <= inject_Z v)%Q /\
    (inject_Z v <= (11 # 10) * inject_Z b + (1 # 2))%Q.
Proof.
  intros Hu c table_price b. subst c. unfold handle_market_comparison.
  cbn [labels market_prices]. rewrite davanagere_today_average.
  fold table_price. fold b.
  split; [reflexivity|]. split; [now rewrite length_imap|].
  intros v Hin. apply list_elem_of_In in Hin.
  apply elem_of_lookup_imap_1 in Hin as (i & lbl & -> & _).
  pose proof (base_price_range (py_lower (default "unknown" commodity))) as [Hlo _].
  fold table_price in Hlo.
  assert (Hb : (0 <= inject_Z b)%Q).
  { change 0%Q with (inject_Z 0). rewrite <- Zle_Qle.
    rewrite <- (py_round_inject 0). apply py_round_mono.
    assert (Hp : (1200 <= inject_Z table_price)%Q).
    { change 1200%Q with (inject_Z 1200). now rewrite <- Zle_Qle. }
    change (inject_Z 0) with 0%Q. lra. }
  destruct (Hu i) as [H1 H2].
  destruct (py_round_near (inject_Z b * u i)) as [Hn1 Hn2].
  assert (H3 : ((9 # 10) * inject_Z b <= u i * inject_Z b)%Q)
    by (apply Qmult_le_compat_r; assumption).
  assert (H4 : (u i * inject_Z b <= (11 # 10) * inject_Z b)%Q)
    by (apply Qmult_le_compat_r; assumption).
  split; lra.
Qed.

Lemma imap_keys {A} (f : nat -> string -> A) (l : list string) :
  map fst (imap (fun i s => (s, f i s)) l) = l.
Proof.
  revert f. induction l as [|x l IH]; intros f; [reflexivity|].
  cbn [imap map fst]. f_equal. apply (IH (fun i s => f (S i) s)).
Qed.

(** X19: every heatmap has the same keys: the 35 names of [states], each
    once, whatever the commodity and the draws. *)
Theorem heatmap_keys_fixed
    (commodity : option string) (r_trend r_low r_high : Q) (u : nat -> Q) :
  let keys :=
    map fst (state_prices (handle_heatmap_data commodity r_trend r_low r_high u)) in
  (forall k, In k keys <-> In k heatmap_states) /\
  NoDup keys /\ length keys = 35%nat.
Proof.
  intros keys.
  assert (Hkeys : keys = heatmap_states).
  { subst keys. unfold handle_heatmap_data, state_prices. cbn [body].
    apply imap_keys. }
  rewrite Hkeys. split; [tauto|]. split; [|reflexivity].
  apply (bool_decide_unpack _). vm_compute. exact I.
Qed.

(* ===================================================================== *)
(** * Properties of the weather and crop helpers *)
(* ===================================================================== *)

(** What the two substring tests give on the six conditions. *)
Lemma condition_flags (pick : nat) :
  (pick < 6)%nat ->
  let c := default "Sunny" (conditions !! pick) in
  (c = "Sunny" /\ py_in "Rain" c = false /\ py_in "Sunny" c = true) \/
  ((c = "Light Rain" \/ c = "Rainy") /\ py_in "Rain" c = true) \/
  (c <> "Sunny" /\ c <> "Light Rain" /\ c <> "Rainy" /\
   py_in "Rain" c = false /\ py_in "Sunny" c = false).
Proof.
  intros Hp.
  destruct pick as [|[|[|[|[|[|]]]]]]; try lia; cbn.
  - left. repeat split.
  - right. right. repeat split; discriminate.
  - right. right. repeat split; discriminate.
  - right. left. split; [left|]; reflexivity.
  - right. right. repeat split; discriminate.
  - right. left. split; [right|]; reflexivity.
Qed.

(** Only Delhi has a range that goes above 38 degrees. *)
Lemma temp_range_bounds (market : string) :
  20 <= (temp_range market).1 /\ (temp_range market).2 <= 42 /\
  (market <> "Delhi" -> (temp_range market).2 <= 38).
Proof.
  unfold temp_range, temps. cbn [dict_get].
  destruct (String.eqb_spec "Delhi" market) as [<- | Hd]; [cbn; split; [lia|split; [lia|congruence]]|].
  repeat (destruct (String.eqb _ market); [cbn; repeat split; lia|]).
  cbn. repeat split; lia.
Qed.

(** X20: for a temperature drawn in the range of the market and a condition
    drawn from the list, [get_weather_data] gives a temperature between 20
    and 42; the impact is the one about rain exactly for "Light Rain" and
    "Rainy", and the one about heat exactly for "Sunny" above 38 degrees,
    which only the market "Delhi" can reach. The coordinates change the name
    shown and nothing else. *)
Theorem weather_impact_rules
    (market : string) (lat lon : option string) (temp_draw : Z) (pick : nat) :
  (pick < 6)%nat ->
  (temp_range market).1 <= temp_draw <= (temp_range market).2 ->
  let w := get_weather_data market lat lon temp_draw pick in
  20 <= temp w <= 42 /\
  (impact w = impact_rain <-> condition w = "Light Rain" \/ condition w = "Rainy") /\
  (impact w = impact_heat <-> condition w = "Sunny" /\ 38 < temp w) /\
  (impact w = impact_heat -> market = "Delhi") /\
  (temp w, condition w, impact w) =
    (let w0 := get_weather_data market None None temp_draw pick in
     (temp w0, condition w0, impact w0)).
Proof.
  intros Hp Ht w. subst w. unfold get_weather_data.
  cbn [temp condition impact].
  destruct (temp_range_bounds market) as (Hlo & Hhi & Hother).
  pose proof (condition_flags pick Hp) as Hc. cbv zeta in Hc.
  set (c := default "Sunny" (conditions !! pick)) in *. clearbody c.
  assert (Hdelhi : 38 < temp_draw -> market = "Delhi").
  { intros H38. destruct (string_dec market "Delhi") as [|Hne]; [assumption|].
    specialize (Hother Hne). lia. }
  split; [lia|].
  destruct Hc as [(-> & Hr & Hs) | [(Hc & Hr) | (H1 & H2 & H3 & Hr & Hs)]];
    rewrite Hr; rewrite ?Hs; cbn [andb].
  - destruct (Z.ltb_spec 38 temp_draw) as [Hgt | Hle].
    + repeat split; try discriminate; auto.
      intros [|]; discriminate.
    + repeat split; try discriminate; auto; try lia.
      intros [|]; discriminate.
  - repeat split; try discriminate; auto.
    intros [Hs _]. destruct Hc; congruence.
  - repeat split; try discriminate; auto.
    + intros [|]; congruence.
    + intros [? _]. congruence.
Qed.



(* ===================================================================== *)
(** * Properties of the explanation factors and of the chart data *)
(* ===================================================================== *)

Lemma insert_desc_perm (x : Factor) (l : list Factor) :
  insert_desc x l ≡ₚ x :: l.
Proof.
  induction l as [|y l IH]; [reflexivity|].
  cbn [insert_desc]. destruct (Qle_bool (importance y) (importance x)); [reflexivity|].
  rewrite IH. apply Permutation_swap.
Qed.

Lemma sorted_desc_perm (l : list Factor) : sorted_desc l ≡ₚ l.
Proof.
  induction l as [|x l IH]; [reflexivity|].
  cbn [sorted_desc foldr]. rewrite insert_desc_perm. now constructor.
Qed.

Lemma insert_desc_sorted (x : Factor) (l : list Factor) :
  Sorted (fun a b => (importance b <= importance a)%Q) l ->
  Sorted (fun a b => (importance b <= importance a)%Q) (insert_desc x l).
Proof.
  induction l as [|y l IH]; intros Hs; cbn [insert_desc].
  - repeat constructor.
  - destruct (Qle_bool (importance y) (importance x)) eqn:E.
    + constructor; [exact Hs|]. constructor. now apply Qle_bool_iff.
    + assert (Hxy : (importance x <= importance y)%Q).
      { destruct (Qlt_le_dec (importance x) (importance y)) as [Hlt | Hle];
          [now apply Qlt_le_weak|].
        apply Qle_bool_iff in Hle. congruence. }
      inversion Hs as [|? ? Hl Hhd]; subst.
      constructor; [now apply IH|].
      destruct l as [|z l]; cbn [insert_desc].
      * now constructor.
      * destruct (Qle_bool (importance z) (importance x)); constructor;
          [exact Hxy | now inversion Hhd].
Qed.

Lemma sorted_desc_sorted (l : list Factor) :
  Sorted (fun a b => (importance b <= importance a)%Q) (sorted_desc l).
Proof.
  induction l as [|x l IH]; [constructor|].
  cbn [sorted_desc foldr]. now apply insert_desc_sorted.
Qed.

(** X22: whatever order [random.shuffle] gives the five factors,
    [get_xai_insights] returns three of them, under three different names,
    from the most to the least important. *)
Theorem xai_top_three_sorted
    (rain_positive : bool) (i1 i2 i3 i4 i5 : Q)
    (shuffle : list Factor -> list Factor) :
  let factors := xai_factors rain_positive i1 i2 i3 i4 i5 in
  shuffle factors ≡ₚ factors ->
  let top := get_xai_insights rain_positive i1 i2 i3 i4 i5 shuffle in
  length top = 3%nat /\
  StronglySorted (fun a b => (importance b <= importance a)%Q) top /\
  (forall f, In f top -> In f factors) /\
  NoDup (map factor top).
Proof.
  intros factors Hperm top. subst top. unfold get_xai_insights. fold factors.
  pose proof (sorted_desc_perm (take 3 (shuffle factors))) as Hsorted.
  split; [|split; [|split]].
  - rewrite Hsorted, length_take, Hperm. reflexivity.
  - apply Sorted_StronglySorted; [|apply sorted_desc_sorted].
    intros a b c Hab Hbc. now apply Qle_trans with (importance b).
  - intros f Hin. apply list_elem_of_In. apply list_elem_of_In in Hin.
    rewrite Hsorted in Hin. apply subseteq_take in Hin. now rewrite Hperm in Hin.
  - change (map factor) with (fmap (M:=list) factor).
    rewrite Hsorted, fmap_take.
    apply (sublist_NoDup _ (factor <$> shuffle factors)); [|apply sublist_take].
    rewrite Hperm. apply (bool_decide_unpack _). vm_compute. exact I.
Qed.

(** X23: the two lists [get_historical_data] returns fit each other: 32
    dates and 32 prices, from 30 days ago to yesterday, then today with the
    price of yesterday again, then the day of the prediction with the
    predicted price. *)
Theorem chart_data_aligned
    (day_text : Z -> string) (sqrt_float : Z -> Q) (predicted_price : Q)
    (days_ahead : Z) (r_base : Q) (r_a r_b : Z -> Q) :
  let c := get_historical_data day_text sqrt_float predicted_price days_ahead
             r_base r_a r_b in
  length (dates c) = 32%nat /\ length (prices c) = 32%nat /\
  dates c !! 0%nat = Some (day_text (-30)) /\
  dates c !! 29%nat = Some (day_text (-1)) /\
  dates c !! 30%nat = Some (day_text 0) /\
  dates c !! 31%nat = Some (day_text days_ahead) /\
  prices c !! 30%nat = prices c !! 29%nat /\
  prices c !! 31%nat = Some predicted_price.
Proof. intros c. repeat split. Qed.

(** X24: in the answer of [handle_predict] the three prices agree: the
    modal price is the average of the report, and the chart ends with that
    price on the day asked for, 7 days ahead when the request names none. *)
Theorem predict_answer_consistent
    (daysAhead : option Z) (market commodity : string)
    (r_trend r_low r_high : Q)
    (day_text : Z -> string) (sqrt_float : Z -> Q) (r_base : Q) (r_a r_b : Z -> Q)
    (rain_positive : bool) (i1 i2 i3 i4 i5 : Q)
    (shuffle : list Factor -> list Factor) :
  let p := handle_predict daysAhead market commodity r_trend r_low r_high
             day_text sqrt_float r_base r_a r_b
             rain_positive i1 i2 i3 i4 i5 shuffle in
  prediction_report p =
    get_price_prediction commodity market (default 7 daysAhead) r_trend r_low r_high /\
  predicted_modal_price_INR p = average_price (prediction_report p) /\
  last (prices (chartData p)) = Some (inject_Z (predicted_modal_price_INR p)) /\
  last (dates (chartData p)) = Some (day_text (default 7 daysAhead)) /\
  length (dates (chartData p)) = length (prices (chartData p)).
Proof.
  intros p. subst p. unfold handle_predict. cbn [prediction_report
    predicted_modal_price_INR chartData].
  set (report := get_price_prediction _ _ _ _ _ _). clearbody report.
  repeat split.
Qed.

(** X25: for a commodity the router found, the name shown is the English
    name capitalised for "en" and the word of the table for "hi" and "kn":
    every entry of [commodity_keywords] has its three words, so the fall-back
    to the English name is never taken for these two languages. *)
Theorem display_commodity_localized (user_query c : string) :
  find_commodity user_query = Some c ->
  exists hi kn,
    In (c, [c; hi; kn]) commodity_keywords /\
    display_commodity "en" c = py_capitalize c /\
    display_commodity "hi" c = hi /\
    display_commodity "kn" c = kn.
Proof.
  unfold find_commodity. intros Hf.
  destruct (find _ commodity_keywords) as [entry|] eqn:E; [|discriminate].
  injection Hf as <-. apply find_some in E as [Hin _].
  unfold commodity_keywords in Hin. simpl in Hin.
  destruct Hin as [<- | [<- | [<- | [<- | [<- | [<- | []]]]]]];
    do 2 eexists; (split; [unfold commodity_keywords; simpl; tauto|]);
    repeat split; reflexivity.
Qed.

(* ===================================================================== *)
(** * Concrete runs of the further properties *)
(* ===================================================================== *)


(** The user name of [farmer] again, with a new address and number. *)
Lemma register_conflict_witness :
  fields_present (Some "farmer") (Some "monsoon1") (Some "f2@example.com")
    (Some "+919800000000") = true /\
  mobile_format_ok (Some "+919800000000") = true /\
  @register plain_werkzeug true EmailMobileUsername "s3" (Some "farmer")
    (Some "monsoon1") (Some "f2@example.com") (Some "+919800000000") seeded =
  (mkResponse (Msg "Username already exists") 409, seeded).
Proof.
  split; [reflexivity|]. split; [reflexivity|].
  destruct (@register_conflict plain_werkzeug EmailMobileUsername "s3"
              (Some "farmer") (Some "monsoon1") (Some "f2@example.com")
              (Some "+919800000000") seeded ColUsername
              eq_refl eq_refl eq_refl) as (c & Hc & Hreg).
  destruct c; [exact Hreg | vm_compute in Hc; discriminate Hc ..].
Defined.

(** A new user registers and logs in. *)
Lemma register_then_login_witness :
  status (@register plain_werkzeug true UsernameEmailMobile "s3" (Some "ravi")
            (Some "monsoon1") (Some "ravi@example.com") (Some "+919800000000")
            seeded).1 = 201 /\
  @hash_matches plain_werkzeug (@hash_internal plain_werkzeug "s3" "monsoon1")
    "monsoon1" = true /\
  @login plain_werkzeug plain_jwt true (Some "ravi") (Some "monsoon1")
    (@register plain_werkzeug true UsernameEmailMobile "s3" (Some "ravi")
       (Some "monsoon1") (Some "ravi@example.com") (Some "+919800000000")
       seeded).2 =
  mkResponse (AccessToken "ravi:farmer") 200.
Proof.
  split; [reflexivity|]. split; [reflexivity|].
  exact (@register_then_login plain_werkzeug plain_jwt UsernameEmailMobile "s3"
           "ravi" "monsoon1" (Some "ravi@example.com") (Some "+919800000000")
           seeded eq_refl eq_refl).
Defined.

Lemma seeded_unique : unique_columns (users seeded) /\ unique_columns (users pending).
Proof.
  split; intros []; apply (bool_decide_unpack _); vm_compute; exact I.
Qed.

(** [farmer] resets the password with the pending code and logs in. *)
Lemma reset_then_login_witness :
  unique_columns (users pending) /\
  select_by_identifier (Some "farmer@example.com") (users pending) = Some farmer /\
  status (@reset_password plain_werkzeug true "s3" (Some "farmer@example.com")
            (Some "123456") (Some "harvest42") pending).1 = 200 /\
  @hash_matches plain_werkzeug (@hash_internal plain_werkzeug "s3" "harvest42")
    "harvest42" = true /\
  @login plain_werkzeug plain_jwt true (Some "farmer") (Some "harvest42")
    (@reset_password plain_werkzeug true "s3" (Some "farmer@example.com")
       (Some "123456") (Some "harvest42") pending).2 =
  mkResponse (AccessToken "farmer:farmer") 200.
Proof.
  assert (H200 : status (@reset_password plain_werkzeug true "s3"
                           (Some "farmer@example.com") (Some "123456")
                           (Some "harvest42") pending).1 = 200)
    by (vm_compute; reflexivity).
  split; [exact (proj2 seeded_unique)|]. split; [reflexivity|].
  split; [exact H200|]. split; [reflexivity|].
  exact (@reset_then_login plain_werkzeug plain_jwt "s3"
           (Some "farmer@example.com") (Some "123456") "harvest42" pending farmer
           (proj2 seeded_unique) eq_refl H200 eq_refl).
Defined.

(** A request for [farmer] leaves the row of [analyst] alone. *)
Lemma other_users_untouched_witness :
  select_by_identifier (Some "farmer") (users pending) = Some farmer /\
  "analyst" <> username farmer /\
  select_by_username (Some "analyst")
    (users (@reset_password plain_werkzeug true "s3" (Some "farmer") (Some "123456")
              (Some "harvest42") pending).2) = Some analyst.
Proof.
  assert (Hne : "analyst" <> username farmer) by discriminate.
  split; [reflexivity|]. split; [exact Hne|].
  destruct (@other_users_untouched plain_werkzeug true TwilioNotConfigured 1 "s3"
              (Some "farmer") (Some "123456") (Some "harvest42") pending farmer
              "analyst" eq_refl Hne) as (_ & _ & _ & Hrow).
  rewrite Hrow. reflexivity.
Defined.

(** A request for an unknown identifier changes nothing. *)
Lemma failed_requests_change_nothing_witness :
  status (send_otp true TwilioNotConfigured 123456 (Some "nobody") seeded).1 <> 200 /\
  (send_otp true TwilioNotConfigured 123456 (Some "nobody") seeded).2 = seeded.
Proof.
  assert (Hne : status (send_otp true TwilioNotConfigured 123456 (Some "nobody")
                          seeded).1 <> 200) by (vm_compute; discriminate).
  split; [exact Hne|].
  exact (proj1 (@failed_requests_change_nothing plain_werkzeug true
                  TwilioNotConfigured 123456 "s3" (Some "nobody") None None seeded)
           Hne).
Defined.

Lemma unique_columns_preserved_witness :
  unique_columns (users seeded) /\
  unique_columns
    (users (@register plain_werkzeug true UsernameEmailMobile "s3" (Some "ravi")
              (Some "monsoon1") (Some "ravi@example.com") (Some "+919800000000")
              seeded).2).
Proof.
  split; [exact (proj1 seeded_unique)|].
  exact (proj1 (@unique_columns_preserved plain_werkzeug true UsernameEmailMobile
                  TwilioNotConfigured 1 "s3" "s4" (Some "ravi") (Some "monsoon1")
                  (Some "ravi@example.com") (Some "+919800000000")
                  None None None seeded (proj1 seeded_unique))).
Defined.

Lemma pending_keys_registered : otp_keys_registered pending.
Proof.
  intros k [v Hv]. unfold pending in *. cbn [otp_store users] in *.
  destruct (decide (k = "farmer")) as [-> | Hne].
  - apply list_elem_of_In. simpl. tauto.
  - rewrite lookup_insert_ne in Hv by congruence. rewrite lookup_empty in Hv.
    discriminate.
Qed.

Lemma otp_keys_registered_preserved_witness :
  otp_keys_registered pending /\
  otp_keys_registered
    (send_otp true TwilioRaises 654321 (Some "analyst@example.com") pending).2.
Proof.
  split; [exact pending_keys_registered|].
  exact (proj1 (proj2 (@otp_keys_registered_preserved plain_werkzeug true
                         UsernameEmailMobile TwilioRaises 654321 "s3" "s4"
                         None None None None (Some "analyst@example.com")
                         None None pending pending_keys_registered))).
Defined.

(** The mobile number of [analyst] resolves to [analyst]. *)
Lemma identifiers_interchangeable_witness :
  distinct_identifiers (users seeded) = true /\
  In analyst (users seeded) /\
  In "+919876543211" (identifiers analyst) /\
  select_by_identifier (Some "+919876543211") (users seeded) = Some analyst.
Proof.
  assert (H1 : distinct_identifiers (users seeded) = true) by reflexivity.
  assert (H2 : In analyst (users seeded)) by (simpl; tauto).
  assert (H3 : In "+919876543211" (identifiers analyst)) by (simpl; tauto).
  repeat (split; [assumption|]).
  exact (identifiers_interchangeable (users seeded) analyst "+919876543211" H1 H2 H3).
Defined.

(** A question about rice in Delhi is answered with the greeting. *)
Lemma market_names_with_hi_get_greeting_witness :
  In "delhi" ["delhi"; "shivamogga"; "ludhiana"; "nashik"; "kochi"] /\
  py_in "delhi" (py_lower "Rice rate in Delhi?") = true /\
  handle_chat GeminiDisabled 0 (1 # 10) (1 # 10) (Some "Rice rate in Delhi?") (Some "en") =
  mkResponse (ChatResponse (canned "en" "greeting")) 200.
Proof.
  assert (H1 : In "delhi" ["delhi"; "shivamogga"; "ludhiana"; "nashik"; "kochi"])
    by (simpl; tauto).
  assert (H2 : py_in "delhi" (py_lower (default EmptyString (Some "Rice rate in Delhi?")))
               = true) by reflexivity.
  split; [exact H1|]. split; [exact H2|].
  exact (proj2 (market_names_with_hi_get_greeting GeminiDisabled 0 (1 # 10) (1 # 10)
                  (Some "Rice rate in Delhi?") (Some "en") "delhi" H1 H2)).
Defined.

(** A question about the price of tomato is answered for rice. *)
Lemma price_word_reads_as_commodity_witness :
  any_in greeting_keywords (py_lower "price of tomato in pune") = false /\
  py_in "price" (py_lower "price of tomato in pune") = true /\
  find_commodity (py_lower "price of tomato in pune") = Some "rice".
Proof.
  assert (H1 : any_in greeting_keywords
                 (py_lower (default EmptyString (Some "price of tomato in pune")))
               = false) by reflexivity.
  assert (H2 : py_in "price"
                 (py_lower (default EmptyString (Some "price of tomato in pune")))
               = true) by reflexivity.
  split; [exact H1|]. split; [exact H2|].
  destruct (price_word_reads_as_commodity GeminiDisabled 0 (1 # 10) (1 # 10)
              (Some "price of tomato in pune") (Some "en") H1 H2)
    as (c & [-> | ->] & Hfind & _); [vm_compute in Hfind; discriminate Hfind|].
  exact Hfind.
Defined.

(** The tag "fr" is served as "en". *)
Lemma unknown_language_served_in_english_witness :
  dict_get "fr" chat_responses = None /\
  handle_chat GeminiDisabled 0 (1 # 10) (1 # 10) (Some "weather tomorrow") (Some "fr") =
  handle_chat GeminiDisabled 0 (1 # 10) (1 # 10) (Some "weather tomorrow") (Some "en").
Proof.
  split; [reflexivity|].
  exact (proj1 (proj2 (unknown_language_served_in_english GeminiDisabled 0 (1 # 10)
                         (1 # 10) (Some "weather tomorrow") "fr" eq_refl))).
Defined.

(** Rice in Pune, 30 days ahead. *)
Lemma price_report_ordered_witness :
  0 <= 30 <= 240 /\
  get_price_prediction "rice" "Pune" 30 2 (1 # 10) (1 # 10) =
    mkPriceReport 3091 2782 3400 /\
  0 <= 2782 /\ 2782 <= 3091 /\ 3091 <= 3400.
Proof.
  assert (Hd : 0 <= 30 <= 240) by lia.
  assert (Ht : (-5 <= 2)%Q /\ (2 <= 10)%Q) by (unfold Qle; simpl; lia).
  assert (Hu : (5 # 100 <= 1 # 10)%Q /\ (1 # 10 <= 15 # 100)%Q)
    by (unfold Qle; simpl; lia).
  split; [exact Hd|]. split; [reflexivity|].
  destruct (price_report_ordered "rice" "Pune" 30 2 (1 # 10) (1 # 10) Hd Ht Hu Hu)
    as (H1 & H2 & H3 & _).
  repeat split; assumption.
Defined.

(** Wheat with every draw at 1.1. *)
Lemma market_comparison_within_band_witness :
  let u := fun _ : nat => (11 # 10)%Q in
  (forall i, (9 # 10 <= u i)%Q /\ (u i <= 11 # 10)%Q) /\
  market_prices (handle_market_comparison (Some "wheat") 0 (1 # 10) (1 # 10) u) =
    [2444; 2444; 2444; 2444; 2444; 2444] /\
  (inject_Z 2444 <= (11 # 10) * inject_Z 2222 + (1 # 2))%Q.
Proof.
  intros u.
  assert (Hu : forall i, (9 # 10 <= u i)%Q /\ (u i <= 11 # 10)%Q)
    by (intros i; unfold u, Qle; simpl; lia).
  split; [exact Hu|]. split; [reflexivity|].
  destruct (market_comparison_within_band (Some "wheat") 0 (1 # 10) (1 # 10) u Hu)
    as (_ & _ & Hband).
  exact (proj2 (Hband 2444 (or_introl eq_refl))).
Defined.

(** A sunny day at 41 degrees in Delhi. *)
Lemma weather_impact_rules_witness :
  (0 < 6)%nat /\
  (temp_range "Delhi").1 <= 41 <= (temp_range "Delhi").2 /\
  condition (get_weather_data "Delhi" (Some "12.9") (Some "77.5") 41 0) = "Sunny" /\
  impact (get_weather_data "Delhi" (Some "12.9") (Some "77.5") 41 0) = impact_heat.
Proof.
  assert (Hp : (0 < 6)%nat) by lia.
  assert (Ht : (temp_range "Delhi").1 <= 41 <= (temp_range "Delhi").2)
    by (vm_compute; split; discriminate).
  split; [exact Hp|]. split; [exact Ht|]. split; [reflexivity|].
  destruct (weather_impact_rules "Delhi" (Some "12.9") (Some "77.5") 41 0 Hp Ht)
    as (_ & _ & Hheat & _).
  apply (proj2 Hheat). split; [reflexivity | cbn; lia].
Defined.


(** The five factors in reverse order. *)
Lemma xai_top_three_sorted_witness :
  let factors := xai_factors true (3 # 10) (5 # 10) (4 # 10) (6 # 10) (2 # 10) in
  rev factors ≡ₚ factors /\
  map factor
    (get_xai_insights true (3 # 10) (5 # 10) (4 # 10) (6 # 10) (2 # 10) (@rev Factor)) =
    ["Global market trends"; "News sentiment"; "Fuel prices"] /\
  length (get_xai_insights true (3 # 10) (5 # 10) (4 # 10) (6 # 10) (2 # 10) (@rev Factor))
    = 3%nat.
Proof.
  intros factors.
  assert (Hperm : rev factors ≡ₚ factors) by (symmetry; apply Permutation_rev).
  split; [exact Hperm|]. split; [reflexivity|].
  exact (proj1 (xai_top_three_sorted true (3 # 10) (5 # 10) (4 # 10) (6 # 10) (2 # 10)
                  (@rev Factor) Hperm)).
Defined.

(** A question about onions, in the three languages. *)
Lemma display_commodity_localized_witness :
  find_commodity "onion rate today" = Some "onion" /\
  display_commodity "hi" "onion" = "प्याज" /\
  display_commodity "kn" "onion" = "ಈರುಳ್ಳಿ".
Proof.
  assert (Hf : find_commodity "onion rate today" = Some "onion") by reflexivity.
  split; [exact Hf|].
  destruct (display_commodity_localized "onion rate today" "onion" Hf)
    as (hi & kn & _ & _ & Hhi & Hkn).
  split; reflexivity.
Defined.
